(** * libmaple RCC driver (libmaple/rcc.c): clock setup, clock enable,
      peripheral reset and prescaler commands of the STM32 reset and clock
      control block, embedded as programs over a register bus. *)

From Stdlib Require Import ZArith Lia Bool.
From stdpp Require Import base decidable numbers list.

Local Open Scope Z_scope.

(** ** 32-bit machine integers

    A [uint32] is a [Z]; conversions to [uint32] are written [u32]. *)

Definition u32 (x : Z) : Z := x mod 2 ^ 32.

(** [~x] evaluated in (or converted to) [uint32]. *)
Definition not32 (x : Z) : Z := u32 (Z.lnot x).

(** Modelled from the spec: the [BIT] macro of libmaple.h, which is not part
    of rcc.c; "bit [line]" of a register is the mask [1UL << line]. *)
Definition BIT (shift : Z) : Z := u32 (Z.shiftl 1 shift).

(** ** Register addresses and field masks (rcc.c, lines 35-68) *)

Definition RCC_BASE : Z := 0x40021000.
Definition RCC_CR : Z := RCC_BASE + 0x0.
Definition RCC_CFGR : Z := RCC_BASE + 0x4.
Definition RCC_CIR : Z := RCC_BASE + 0x8.
Definition RCC_APB2RSTR : Z := RCC_BASE + 0xC.
Definition RCC_APB1RSTR : Z := RCC_BASE + 0x10.
Definition RCC_AHBENR : Z := RCC_BASE + 0x14.
Definition RCC_APB2ENR : Z := RCC_BASE + 0x18.
Definition RCC_APB1ENR : Z := RCC_BASE + 0x1C.
Definition RCC_BDCR : Z := RCC_BASE + 0x20.
Definition RCC_CSR : Z := RCC_BASE + 0x24.
Definition RCC_AHBSTR : Z := RCC_BASE + 0x28.
Definition RCC_CFGR2 : Z := RCC_BASE + 0x2C.

Definition RCC_CFGR_USBPRE : Z := Z.shiftl 0x1 22.
Definition RCC_CFGR_ADCPRE : Z := Z.shiftl 0x3 14.
Definition RCC_CFGR_PPRE1 : Z := Z.shiftl 0x7 8.
Definition RCC_CFGR_PPRE2 : Z := Z.shiftl 0x7 11.
Definition RCC_CFGR_HPRE : Z := Z.shiftl 0xF 4.
Definition RCC_CFGR_PLLSRC : Z := Z.shiftl 0x1 16.

Definition RCC_CFGR_SWS : Z := Z.shiftl 0x3 2.
Definition RCC_CFGR_SWS_PLL : Z := Z.shiftl 0x2 2.
Definition RCC_CFGR_SWS_HSE : Z := Z.shiftl 0x1 2.

Definition RCC_CFGR_SW : Z := Z.shiftl 0x3 0.
Definition RCC_CFGR_SW_PLL : Z := Z.shiftl 0x2 0.
Definition RCC_CFGR_SW_HSE : Z := Z.shiftl 0x1 0.

Definition RCC_CR_HSEON : Z := Z.shiftl 0x1 16.
Definition RCC_CR_HSERDY : Z := Z.shiftl 0x1 17.
Definition RCC_CR_PLLON : Z := Z.shiftl 0x1 24.
Definition RCC_CR_PLLRDY : Z := Z.shiftl 0x1 25.

(** The anonymous bus-domain enumeration. *)
Definition APB1 : Z := 0.
Definition APB2 : Z := 1.
Definition AHB : Z := 2.

Record rcc_dev_info := mk_dev_info { clk_domain : Z; line_num : Z }.

(** ** The constants of rcc.h

    rcc.h is not part of the sources at hand.  rcc.c names thirteen device
    identifiers, five prescaler selectors and two clock-source constants from
    it; the names are kept here and their numeric values are a parameter of
    the development. *)

Inductive rcc_dev :=
| RCC_GPIOA | RCC_GPIOB | RCC_GPIOC | RCC_GPIOD | RCC_AFIO | RCC_ADC1
| RCC_USART1 | RCC_USART2 | RCC_USART3
| RCC_TIMER1 | RCC_TIMER2 | RCC_TIMER3 | RCC_TIMER4.

Inductive rcc_prescaler :=
| RCC_PRESCALER_AHB | RCC_PRESCALER_APB1 | RCC_PRESCALER_APB2
| RCC_PRESCALER_USB | RCC_PRESCALER_ADC.

#[global] Instance rcc_dev_eq_dec : EqDecision rcc_dev.
Proof. solve_decision. Defined.

#[global] Instance rcc_prescaler_eq_dec : EqDecision rcc_prescaler.
Proof. solve_decision. Defined.

Record rcc_h := mk_rcc_h {
  dev_num : rcc_dev -> nat;
  prescaler_num : rcc_prescaler -> nat;
  RCC_CLKSRC_PLL : Z;
  RCC_PLLSRC_HSE : Z
}.

(** Enumeration constants of one C [enum] are pairwise distinct. *)
Definition rcc_h_ok (hdr : rcc_h) : Prop :=
  Inj (=) (=) (dev_num hdr) /\ Inj (=) (=) (prescaler_num hdr).

(** ** C arrays with designated initializers

    [T arr[] = { [i] = v, ... }] has one more element than its largest
    designator, every element without a designator is zero, and a later
    initializer for the same index overrides an earlier one. *)

Definition designate {A : Type} (zero : A) (inits : list (nat * A)) : list A :=
  fold_left
    (fun arr iv => <[iv.1 := iv.2]> (resize (length arr `max` S iv.1)%nat zero arr))
    inits [].

(** Reading [arr[i]]: defined only inside the array. *)
Definition array_get {A : Type} (arr : list A) (i : Z) : option A :=
  if i <? 0 then None else arr !! Z.to_nat i.

(** The device descriptor table (rcc.c, lines 88-102), by designator name. *)
Definition rcc_dev_inits : list (rcc_dev * rcc_dev_info) :=
  [ (RCC_GPIOA,  {| clk_domain := APB2; line_num := 2 |});
    (RCC_GPIOB,  {| clk_domain := APB2; line_num := 3 |});
    (RCC_GPIOC,  {| clk_domain := APB2; line_num := 4 |});
    (RCC_GPIOD,  {| clk_domain := APB2; line_num := 5 |});
    (RCC_AFIO,   {| clk_domain := APB2; line_num := 0 |});
    (RCC_ADC1,   {| clk_domain := APB2; line_num := 9 |});
    (RCC_USART1, {| clk_domain := APB2; line_num := 14 |});
    (RCC_USART2, {| clk_domain := APB1; line_num := 17 |});
    (RCC_USART3, {| clk_domain := APB1; line_num := 18 |});
    (RCC_TIMER1, {| clk_domain := APB2; line_num := 11 |});
    (RCC_TIMER2, {| clk_domain := APB1; line_num := 0 |});
    (RCC_TIMER3, {| clk_domain := APB1; line_num := 1 |});
    (RCC_TIMER4, {| clk_domain := APB1; line_num := 2 |}) ].

Definition zero_dev_info : rcc_dev_info := {| clk_domain := 0; line_num := 0 |}.

Definition rcc_dev_table (hdr : rcc_h) : list rcc_dev_info :=
  designate zero_dev_info (prod_map (dev_num hdr) id <$> rcc_dev_inits).

(** [enable_regs] of [rcc_clk_enable] and [reset_regs] of [rcc_reset_dev];
    their designators [APB1], [APB2], [AHB] are defined in rcc.c itself. *)
Definition enable_regs : list Z :=
  designate 0 [ (Z.to_nat APB1, RCC_APB1ENR);
                (Z.to_nat APB2, RCC_APB2ENR);
                (Z.to_nat AHB, RCC_AHBENR) ].

Definition reset_regs : list Z :=
  designate 0 [ (Z.to_nat APB1, RCC_APB1RSTR);
                (Z.to_nat APB2, RCC_APB2RSTR) ].

(** [masks] of [rcc_set_prescaler], by designator name. *)
Definition masks_inits : list (rcc_prescaler * Z) :=
  [ (RCC_PRESCALER_AHB, RCC_CFGR_HPRE);
    (RCC_PRESCALER_APB1, RCC_CFGR_PPRE1);
    (RCC_PRESCALER_APB2, RCC_CFGR_PPRE2);
    (RCC_PRESCALER_USB, RCC_CFGR_USBPRE);
    (RCC_PRESCALER_ADC, RCC_CFGR_ADCPRE) ].

Definition masks (hdr : rcc_h) : list Z :=
  designate 0 (prod_map (prescaler_num hdr) id <$> masks_inits).

(** ** Programs over a register bus

    Every access the driver makes to a memory-mapped register goes through
    the bus and is recorded, in order, in the trace of the run.  A volatile
    read may return anything the hardware decides and may change the
    hardware's state. *)

Inductive event :=
| EvRead (addr val : Z)
| EvWrite (addr val : Z).

Class Bus (H : Type) := {
  bus_read : Z -> H -> Z * H;
  bus_write : Z -> Z -> H -> H
}.

(** How a call ends: it returns, it stops in a failed [ASSERT], it runs into
    behaviour C leaves undefined (an array read out of bounds), or it is
    still spinning in a busy-wait loop when the fuel of the model is used up.
    [Undefined] only marks that undefined behaviour has been reached: the
    compiled program does not stop there, and nothing is stated about what
    it accesses afterwards. *)
Inductive outcome (A : Type) :=
| Returned (a : A)
| Faulted
| Undefined
| Spinning.
Arguments Returned {A} a.
Arguments Faulted {A}.
Arguments Undefined {A}.
Arguments Spinning {A}.

Record run (H A : Type) := Run {
  result : outcome A;
  hw : H;
  trace : list event
}.
Arguments Run {H A} _ _ _.
Arguments result {H A} _.
Arguments hw {H A} _.
Arguments trace {H A} _.

Definition prog (H A : Type) : Type := H -> run H A.

#[global] Instance prog_ret {H} : MRet (prog H) :=
  fun A a h => Run (Returned a) h [].

#[global] Instance prog_bind {H} : MBind (prog H) :=
  fun A B f m h =>
    let r := m h in
    match result r with
    | Returned a =>
        let r' := f a (hw r) in
        Run (result r') (hw r') (trace r ++ trace r')
    | Faulted => Run Faulted (hw r) (trace r)
    | Undefined => Run Undefined (hw r) (trace r)
    | Spinning => Run Spinning (hw r) (trace r)
    end.

Section Driver.
Context {H : Type} `{Bus H}.

(** Modelled from the spec: the [__read] primitive of libmaple.h, which is
    not part of rcc.c: a 32-bit read of a memory-mapped register. *)
Definition __read (addr : Z) : prog H Z :=
  fun h => let (v, h') := bus_read addr h in Run (Returned v) h' [EvRead addr v].

(** Modelled from the spec: the [__write] primitive of libmaple.h, which is
    not part of rcc.c: a 32-bit write of a memory-mapped register. *)
Definition __write (addr val : Z) : prog H unit :=
  fun h => Run (Returned tt) (bus_write addr val h) [EvWrite addr val].

(** Modelled from the spec: the [__set_bits] primitive of libmaple.h, which
    is not part of rcc.c: the read-modify-write that ors a mask into a
    register. *)
Definition __set_bits (addr mask : Z) : prog H unit :=
  v ← __read addr; __write addr (Z.lor v (u32 mask)).

(** Modelled from the spec: the [__clear_bits] primitive of libmaple.h, which
    is not part of rcc.c: the read-modify-write that clears the bits of a
    mask in a register. *)
Definition __clear_bits (addr mask : Z) : prog H unit :=
  v ← __read addr; __write addr (Z.land v (not32 mask)).

(** Modelled from the spec: the [ASSERT] macro of libmaple.h, which is not
    part of rcc.c: it halts on a false condition, with no recovery. *)
Definition ASSERT (cond : bool) : prog H unit :=
  fun h => if cond then Run (Returned tt) h [] else Run Faulted h [].

(** An array element as an rvalue.  rcc.c checks no index: a read out of
    bounds is undefined behaviour, marked by [Undefined]; the run is followed
    no further, so the definition describes the program only for indices
    inside the array. *)
Definition elem {A : Type} (arr : list A) (i : Z) : prog H A :=
  fun h => match array_get arr i with
           | Some x => Run (Returned x) h []
           | None => Run Undefined h []
           end.

(** [while (cond) body], unrolled at most [fuel] times. *)
Fixpoint while_ (fuel : nat) (cond : prog H bool) (body : prog H unit)
  : prog H unit :=
  match fuel with
  | O => fun h => Run Spinning h []
  | S fuel' =>
      c ← cond;
      if c : bool then body;; while_ fuel' cond body else mret tt
  end.

Definition RCC_WRITE_CFGR (val : Z) : prog H unit := __write RCC_CFGR val.
Definition RCC_READ_CFGR : prog H Z := __read RCC_CFGR.
Definition RCC_WRITE_CR (val : Z) : prog H unit := __write RCC_CR val.
Definition RCC_READ_CR : prog H Z := __read RCC_CR.

Variable hdr : rcc_h.

(** rcc.c, lines 111-141. *)
Definition rcc_clk_init (fuel : nat) (sysclk_src pll_src pll_mul : Z)
  : prog H unit :=
  ASSERT ((sysclk_src =? RCC_CLKSRC_PLL hdr) && (pll_src =? RCC_PLLSRC_HSE hdr));;
  let cfgr := 0 in
  cr ← RCC_READ_CR;
  let cfgr := Z.lor pll_src pll_mul in
  RCC_WRITE_CFGR cfgr;;
  (* Turn on the HSE *)
  let cr := Z.lor cr RCC_CR_HSEON in
  RCC_WRITE_CR cr;;
  while_ fuel (v ← RCC_READ_CR; mret (Z.land v RCC_CR_HSERDY =? 0)) (mret tt);;
  (* Now the PLL *)
  let cr := Z.lor cr RCC_CR_PLLON in
  RCC_WRITE_CR cr;;
  while_ fuel (v ← RCC_READ_CR; mret (Z.land v RCC_CR_PLLRDY =? 0)) (mret tt);;
  (* Finally, switch over to the PLL *)
  let cfgr := Z.land cfgr (not32 RCC_CFGR_SW) in
  let cfgr := Z.lor cfgr RCC_CFGR_SW_PLL in
  RCC_WRITE_CFGR cfgr;;
  while_ fuel
    (v ← RCC_READ_CFGR; mret (negb (Z.land v RCC_CFGR_SWS =? RCC_CFGR_SWS_PLL)))
    (mret tt).

(** rcc.c, lines 149-159. *)
Definition rcc_clk_enable (dev_num : Z) : prog H unit :=
  info ← elem (rcc_dev_table hdr) dev_num;
  let clk_domain := clk_domain info in
  reg ← elem enable_regs clk_domain;
  __set_bits reg (BIT (line_num info)).

(** rcc.c, lines 167-181. *)
Definition rcc_set_prescaler (prescaler divider : Z) : prog H unit :=
  cfgr ← RCC_READ_CFGR;
  mask ← elem (masks hdr) prescaler;
  let cfgr := Z.land cfgr (not32 mask) in
  let cfgr := Z.lor cfgr divider in
  RCC_WRITE_CFGR cfgr.

(** rcc.c, lines 188-198. *)
Definition rcc_reset_dev (dev_num : Z) : prog H unit :=
  info ← elem (rcc_dev_table hdr) dev_num;
  let clk_domain := clk_domain info in
  reg ← elem reset_regs clk_domain;
  __set_bits reg (BIT (line_num info));;
  reg ← elem reset_regs clk_domain;
  __clear_bits reg (BIT (line_num info)).

End Driver.

(** ** Two register buses

    [regfile] is the plain register model: a read returns what was last
    written.  [sim] adds the behaviour of the clock hardware the busy-wait
    loops depend on: after a write the status bits need [sim_settle] further
    reads before they follow the enable bits, and a board without a working
    crystal ([sim_hse_ok = false]) never reports the oscillator ready. *)

Definition regfile : Type := Z -> Z.

Definition regfile_set (addr val : Z) (r : regfile) : regfile :=
  fun a => if a =? addr then val else r a.

#[global] Instance regfile_bus : Bus regfile := {
  bus_read addr r := (r addr, r);
  bus_write addr val r := regfile_set addr val r
}.

Definition zero_regs : regfile := fun _ => 0.

Record sim := Sim {
  sim_regs : regfile;
  sim_settle : nat;
  sim_hse_ok : bool
}.

Definition with_bits (mask : Z) (on : bool) (v : Z) : Z :=
  if on then Z.lor v mask else Z.land v (not32 mask).

Definition sim_status (s : sim) (addr : Z) : Z :=
  let v := sim_regs s addr in
  let settled := match sim_settle s with O => true | S _ => false end in
  if addr =? RCC_CR then
    with_bits RCC_CR_HSERDY
      (settled && sim_hse_ok s && negb (Z.land v RCC_CR_HSEON =? 0))
      (with_bits RCC_CR_PLLRDY
         (settled && sim_hse_ok s && negb (Z.land v RCC_CR_PLLON =? 0)) v)
  else if addr =? RCC_CFGR then
    Z.lor (Z.land v (not32 RCC_CFGR_SWS))
          (if settled then Z.shiftl (Z.land v RCC_CFGR_SW) 2 else 0)
  else v.

#[global] Instance sim_bus : Bus sim := {
  bus_read addr s :=
    (sim_status s addr, Sim (sim_regs s) (Nat.pred (sim_settle s)) (sim_hse_ok s));
  bus_write addr val s :=
    Sim (regfile_set addr val (sim_regs s)) 2 (sim_hse_ok s)
}.

(** A board at reset, with and without a working crystal. *)
Definition board : sim := Sim zero_regs 0 true.
Definition dead_board : sim := Sim zero_regs 0 false.

(** One admissible rcc.h, used to run the driver on concrete inputs:
    enumerators numbered in the order rcc.c lists them. *)
Definition sample_h : rcc_h := {|
  dev_num d :=
    match d with
    | RCC_GPIOA => 0 | RCC_GPIOB => 1 | RCC_GPIOC => 2 | RCC_GPIOD => 3
    | RCC_AFIO => 4 | RCC_ADC1 => 5 | RCC_USART1 => 6 | RCC_USART2 => 7
    | RCC_USART3 => 8 | RCC_TIMER1 => 9 | RCC_TIMER2 => 10
    | RCC_TIMER3 => 11 | RCC_TIMER4 => 12
    end%nat;
  prescaler_num p :=
    match p with
    | RCC_PRESCALER_AHB => 0 | RCC_PRESCALER_APB1 => 1
    | RCC_PRESCALER_APB2 => 2 | RCC_PRESCALER_USB => 3
    | RCC_PRESCALER_ADC => 4
    end%nat;
  RCC_CLKSRC_PLL := 0x2;
  RCC_PLLSRC_HSE := Z.shiftl 0x1 16
|}.

(** ** Trace observations *)

(** The values written to [addr], in order. *)
Definition writes_to (addr : Z) (t : list event) : list Z :=
  omap (fun e => match e with
                 | EvWrite a v => if a =? addr then Some v else None
                 | EvRead _ _ => None
                 end) t.

(** [e] is a read of [addr] whose value has a bit of [mask] set. *)
Definition reads_set (addr mask : Z) (e : event) : Prop :=
  exists v, e = EvRead addr v /\ Z.land v mask <> 0.

(** [e] is a read of the configuration register that shows the system clock
    switched to the PLL. *)
Definition reads_switched (e : event) : Prop :=
  exists v, e = EvRead RCC_CFGR v /\ Z.land v RCC_CFGR_SWS = RCC_CFGR_SWS_PLL.

(** A busy-wait loop on [addr] leaves a run of reads of [addr] whose values
    all keep the loop going. *)
Definition busy_reads (addr : Z) (busy : Z -> bool) (p : list event) : Prop :=
  Forall (fun e => exists v, e = EvRead addr v /\ busy v = true) p.

(** The loop conditions of [rcc_clk_init] (rcc.c, lines 126, 132, 139). *)
Definition hse_busy (v : Z) : bool := Z.land v RCC_CR_HSERDY =? 0.
Definition pll_busy (v : Z) : bool := Z.land v RCC_CR_PLLRDY =? 0.
Definition sw_busy (v : Z) : bool :=
  negb (Z.land v RCC_CFGR_SWS =? RCC_CFGR_SWS_PLL).

(** The traces [rcc_clk_init] can leave once its assertion has passed, by
    the loop it has reached. *)
Definition clk_init_trace (pll_src pll_mul : Z) (res : outcome unit)
    (t : list event) : Prop :=
  exists cr0 p1,
    let cfgr0 := Z.lor pll_src pll_mul in
    let cr1 := Z.lor cr0 RCC_CR_HSEON in
    let cr2 := Z.lor cr1 RCC_CR_PLLON in
    let cfgr1 := Z.lor (Z.land cfgr0 (not32 RCC_CFGR_SW)) RCC_CFGR_SW_PLL in
    let s1 := [EvRead RCC_CR cr0; EvWrite RCC_CFGR cfgr0; EvWrite RCC_CR cr1] ++ p1 in
    busy_reads RCC_CR hse_busy p1 /\
    ((res = Spinning /\ t = s1) \/
     exists v1 p2,
       let s2 := s1 ++ [EvRead RCC_CR v1; EvWrite RCC_CR cr2] ++ p2 in
       hse_busy v1 = false /\ busy_reads RCC_CR pll_busy p2 /\
       ((res = Spinning /\ t = s2) \/
        exists v2 p3,
          let s3 := s2 ++ [EvRead RCC_CR v2; EvWrite RCC_CFGR cfgr1] ++ p3 in
          pll_busy v2 = false /\ busy_reads RCC_CFGR sw_busy p3 /\
          ((res = Spinning /\ t = s3) \/
           exists v3,
             sw_busy v3 = false /\ res = Returned tt /\
             t = s3 ++ [EvRead RCC_CFGR v3]))).

(** The five prescaler fields of the configuration register. *)
Definition prescaler_fields : list Z :=
  [RCC_CFGR_HPRE; RCC_CFGR_PPRE1; RCC_CFGR_PPRE2; RCC_CFGR_ADCPRE; RCC_CFGR_USBPRE].

(** The register an access goes to. *)
Definition ev_addr (e : event) : Z :=
  match e with EvRead a _ | EvWrite a _ => a end.

(** The fields of the configuration register rcc.c names besides the
    prescalers. *)
Definition clock_select_fields : list Z :=
  [RCC_CFGR_SW; RCC_CFGR_SWS; RCC_CFGR_PLLSRC].

(** Another admissible rcc.h, whose enumerators leave every odd value
    unused. *)
Definition sparse_h : rcc_h := {|
  dev_num d := (2 * dev_num sample_h d)%nat;
  prescaler_num p := (2 * prescaler_num sample_h p)%nat;
  RCC_CLKSRC_PLL := 0x2;
  RCC_PLLSRC_HSE := Z.shiftl 0x1 16
|}.

(** * Properties *)

(** ** Bits *)

Lemma u32_small x : 0 <= x < 2 ^ 32 -> u32 x = x.
Proof. intros. unfold u32. by apply Z.mod_small. Qed.

Lemma u32_range x : 0 <= u32 x < 2 ^ 32.
Proof. unfold u32. apply Z.mod_pos_bound. lia. Qed.

Lemma u32_testbit x i :
  0 <= i -> Z.testbit (u32 x) i = bool_decide (i < 32) && Z.testbit x i.
Proof.
  intros Hi. unfold u32. case_bool_decide.
  - rewrite Z.mod_pow2_bits_low by lia. done.
  - rewrite Z.mod_pow2_bits_high by lia. done.
Qed.

Lemma not32_testbit x i :
  0 <= i -> Z.testbit (not32 x) i = bool_decide (i < 32) && negb (Z.testbit x i).
Proof. intros Hi. unfold not32. by rewrite u32_testbit, Z.lnot_spec. Qed.

Lemma BIT_pow2 n : 0 <= n < 32 -> BIT n = 2 ^ n.
Proof.
  intros Hn. unfold BIT. rewrite Z.shiftl_1_l. apply u32_small.
  split; [lia|]. apply Z.pow_lt_mono_r; lia.
Qed.

Lemma BIT_testbit n i :
  0 <= n < 32 -> 0 <= i -> Z.testbit (u32 (BIT n)) i = bool_decide (i = n).
Proof.
  intros Hn Hi. rewrite u32_small by apply u32_range.
  rewrite BIT_pow2 by done. rewrite Z.pow2_bits_eqb by lia.
  case_bool_decide; subst; [apply Z.eqb_refl | apply Z.eqb_neq; congruence].
Qed.

(** ** Arrays with designated initializers *)

Section Designate.
Context {A : Type} (zero : A).
Implicit Types (inits : list (nat * A)) (i : nat) (x : A).

Lemma designate_snoc inits i x :
  designate zero (inits ++ [(i, x)]) =
  <[i := x]> (resize (length (designate zero inits) `max` S i)%nat zero
                     (designate zero inits)).
Proof. unfold designate. by rewrite fold_left_app. Qed.

(** A designator that occurs once selects its initializer. *)
Lemma designate_lookup inits i x :
  NoDup inits.*1 -> (i, x) ∈ inits -> designate zero inits !! i = Some x.
Proof.
  revert i x. induction inits as [|[j y] inits IH] using rev_ind;
    intros i x Hnd Hin.
  - by apply elem_of_nil in Hin.
  - rewrite fmap_app in Hnd. cbn in Hnd.
    apply NoDup_app in Hnd as (Hnd & Hfresh & _).
    rewrite designate_snoc. apply elem_of_app in Hin as [Hin|Hin].
    + assert (i <> j) as Hne.
      { intros ->. apply (Hfresh j); [|by left].
        apply list_elem_of_fmap. by exists (j, x). }
      pose proof (IH _ _ Hnd Hin) as Hl.
      pose proof (lookup_lt_Some _ _ _ Hl).
      rewrite list_lookup_insert_ne by done.
      rewrite lookup_resize by lia. done.
    + apply list_elem_of_singleton in Hin as [= -> ->].
      apply list_lookup_insert_eq. rewrite length_resize. lia.
Qed.

(** Every element is a zero or one of the initializers. *)
Lemma designate_Forall (P : A -> Prop) inits :
  P zero -> Forall P inits.*2 -> Forall P (designate zero inits).
Proof.
  intros Hz. induction inits as [|[j y] inits IH] using rev_ind; intros Hall.
  - constructor.
  - rewrite fmap_app in Hall. apply Forall_app in Hall as [Hall Hy].
    rewrite designate_snoc. apply Forall_insert.
    + apply Forall_resize; auto.
    + by apply Forall_inv in Hy.
Qed.
End Designate.

Lemma array_get_of_nat {A} (arr : list A) (i : nat) :
  array_get arr (Z.of_nat i) = arr !! i.
Proof.
  unfold array_get. destruct (Z.ltb_spec (Z.of_nat i) 0); [lia|].
  by rewrite Nat2Z.id.
Qed.

Lemma array_get_Some {A} (arr : list A) (i : Z) (x : A) :
  array_get arr i = Some x <-> 0 <= i /\ arr !! Z.to_nat i = Some x.
Proof.
  unfold array_get. destruct (Z.ltb_spec i 0).
  - split; [done | intros [? _]; lia].
  - split; [intros; split; [lia | done] | by intros [_ ?]].
Qed.

(** ** The tables of rcc.c *)

Lemma rcc_dev_inits_NoDup : NoDup rcc_dev_inits.*1.
Proof. by apply (bool_decide_unpack _). Qed.

Lemma masks_inits_NoDup : NoDup masks_inits.*1.
Proof. by apply (bool_decide_unpack _). Qed.

Lemma rcc_dev_inits_shape d info :
  (d, info) ∈ rcc_dev_inits ->
  (clk_domain info = APB1 \/ clk_domain info = APB2) /\ 0 <= line_num info < 32.
Proof.
  unfold rcc_dev_inits. intros Hin.
  repeat (apply elem_of_cons in Hin as [[= -> ->]|Hin]);
    [cbn; unfold APB1, APB2; (split; [auto | lia]) ..|].
  by apply elem_of_nil in Hin.
Qed.

Lemma rcc_dev_table_lookup hdr d info :
  rcc_h_ok hdr -> (d, info) ∈ rcc_dev_inits ->
  rcc_dev_table hdr !! dev_num hdr d = Some info.
Proof.
  intros [Hinj _] Hin. apply designate_lookup.
  - rewrite <- list_fmap_compose.
    rewrite (list_fmap_ext _ (dev_num hdr ∘ fst) rcc_dev_inits) by (by intros ? []).
    rewrite list_fmap_compose. apply (NoDup_fmap_2 _), rcc_dev_inits_NoDup.
  - apply list_elem_of_fmap. by exists (d, info).
Qed.

Lemma masks_lookup hdr p mask :
  rcc_h_ok hdr -> (p, mask) ∈ masks_inits ->
  masks hdr !! prescaler_num hdr p = Some mask.
Proof.
  intros [_ Hinj] Hin. apply designate_lookup.
  - rewrite <- list_fmap_compose.
    rewrite (list_fmap_ext _ (prescaler_num hdr ∘ fst) masks_inits) by (by intros ? []).
    rewrite list_fmap_compose. apply (NoDup_fmap_2 _), masks_inits_NoDup.
  - apply list_elem_of_fmap. by exists (p, mask).
Qed.

Lemma sample_h_ok : rcc_h_ok sample_h.
Proof. split; intros [] []; cbn; congruence. Qed.

(** ** Running programs *)

Lemma run_eta {H A} (r : run H A) : Run (result r) (hw r) (trace r) = r.
Proof. by destruct r. Qed.

Lemma bind_returned {H A B} (m : prog H A) (f : A -> prog H B) h a h' t :
  m h = Run (Returned a) h' t ->
  (m ≫= f) h = Run (result (f a h')) (hw (f a h')) (t ++ trace (f a h')).
Proof. intros Hm. unfold mbind, prog_bind. by rewrite Hm. Qed.

Lemma bind_silent {H A B} (m : prog H A) (f : A -> prog H B) h a :
  m h = Run (Returned a) h [] -> (m ≫= f) h = f a h.
Proof. intros Hm. rewrite (bind_returned _ _ _ _ _ _ Hm). apply run_eta. Qed.

Lemma elem_inside {H A} (arr : list A) i x (h : H) :
  array_get arr i = Some x -> elem arr i h = Run (Returned x) h [].
Proof. intros Hx. unfold elem. by rewrite Hx. Qed.

Lemma elem_outside {H A} (arr : list A) i (h : H) :
  array_get arr i = None -> elem arr i h = Run Undefined h [].
Proof. intros Hx. unfold elem. by rewrite Hx. Qed.

Lemma enable_regs_defined dom :
  dom = APB1 \/ dom = APB2 ->
  exists reg, array_get enable_regs dom = Some reg /\
              (reg = RCC_APB1ENR \/ reg = RCC_APB2ENR).
Proof. intros [-> | ->]; eexists; (split; [reflexivity|]); auto. Qed.

Lemma reset_regs_defined dom :
  dom = APB1 \/ dom = APB2 ->
  exists reg, array_get reset_regs dom = Some reg /\
              (reg = RCC_APB1RSTR \/ reg = RCC_APB2RSTR).
Proof. intros [-> | ->]; eexists; (split; [reflexivity|]); auto. Qed.

Section Steps.
Context {H : Type} `{Bus H} (hdr : rcc_h).

(** For an identifier of the table, [rcc_clk_enable] is the or-in of its
    line into the enable register of its domain. *)
Lemma rcc_clk_enable_step d info reg (h : H) :
  rcc_h_ok hdr -> (d, info) ∈ rcc_dev_inits ->
  array_get enable_regs (clk_domain info) = Some reg ->
  rcc_clk_enable hdr (Z.of_nat (dev_num hdr d)) h =
  __set_bits reg (BIT (line_num info)) h.
Proof.
  intros Hok Hin Hreg. unfold rcc_clk_enable.
  rewrite (bind_silent _ _ h info).
  2:{ apply elem_inside. rewrite array_get_of_nat.
      by apply rcc_dev_table_lookup. }
  rewrite (bind_silent _ _ h reg) by (by apply elem_inside).
  done.
Qed.

Lemma rcc_reset_dev_step d info reg (h : H) :
  rcc_h_ok hdr -> (d, info) ∈ rcc_dev_inits ->
  array_get reset_regs (clk_domain info) = Some reg ->
  rcc_reset_dev hdr (Z.of_nat (dev_num hdr d)) h =
  (__set_bits reg (BIT (line_num info));;
   __clear_bits reg (BIT (line_num info))) h.
Proof.
  intros Hok Hin Hreg. unfold rcc_reset_dev.
  rewrite (bind_silent _ _ h info).
  2:{ apply elem_inside. rewrite array_get_of_nat.
      by apply rcc_dev_table_lookup. }
  rewrite (bind_silent _ _ h reg) by (by apply elem_inside).
  unfold mbind at 1 3. unfold prog_bind.
  destruct (__set_bits reg (BIT (line_num info)) h) as [[] h1 t1]; cbn; try done.
  by rewrite (bind_silent _ _ h1 reg) by (by apply elem_inside).
Qed.
End Steps.

Lemma regfile_set_eq addr val (r : regfile) : regfile_set addr val r addr = val.
Proof. unfold regfile_set. by rewrite Z.eqb_refl. Qed.

Lemma regfile_set_ne addr val (r : regfile) a :
  a <> addr -> regfile_set addr val r a = r a.
Proof. intros Hne. unfold regfile_set. by apply Z.eqb_neq in Hne as ->. Qed.

Lemma set_bits_regfile reg mask (regs : regfile) :
  __set_bits reg mask regs =
  Run (Returned tt) (regfile_set reg (Z.lor (regs reg) (u32 mask)) regs)
      [EvRead reg (regs reg); EvWrite reg (Z.lor (regs reg) (u32 mask))].
Proof. reflexivity. Qed.

Lemma clear_bits_regfile reg mask (regs : regfile) :
  __clear_bits reg mask regs =
  Run (Returned tt) (regfile_set reg (Z.land (regs reg) (not32 mask)) regs)
      [EvRead reg (regs reg); EvWrite reg (Z.land (regs reg) (not32 mask))].
Proof. reflexivity. Qed.

Lemma u32_BIT n : 0 <= n < 32 -> u32 (BIT n) = 2 ^ n.
Proof. intros Hn. rewrite u32_small by apply u32_range. by apply BIT_pow2. Qed.

Lemma testbit_above v i : 0 <= v < 2 ^ 32 -> 32 <= i -> Z.testbit v i = false.
Proof.
  intros Hv Hi. rewrite <- (u32_small v) by done.
  rewrite u32_testbit by lia. by rewrite bool_decide_false by lia.
Qed.

(** ** Peripheral clock enable *)

(** C3.  For every identifier [d] of the device table and every prior
    content of the registers, [rcc_clk_enable] returns after one read and one
    write of the enable register of [d]'s bus domain, [RCC_APB1ENR] for a
    device on APB1 and [RCC_APB2ENR] for a device on APB2; afterwards bit
    [line_num] of that register is set, every other bit of it is as before,
    and every other register is unchanged. *)
Theorem rcc_clk_enable_sets_exactly_its_line hdr d info (regs : regfile) :
  rcc_h_ok hdr -> (d, info) ∈ rcc_dev_inits ->
  exists reg,
    (clk_domain info = APB1 /\ reg = RCC_APB1ENR \/
     clk_domain info = APB2 /\ reg = RCC_APB2ENR) /\
    let r := rcc_clk_enable hdr (Z.of_nat (dev_num hdr d)) regs in
    result r = Returned tt /\
    trace r = [EvRead reg (regs reg);
               EvWrite reg (Z.lor (regs reg) (2 ^ line_num info))] /\
    (forall i, 0 <= i ->
       Z.testbit (hw r reg) i =
       if bool_decide (i = line_num info) then true else Z.testbit (regs reg) i) /\
    (forall a, a <> reg -> hw r a = regs a).
Proof.
  intros Hok Hin.
  destruct (rcc_dev_inits_shape _ _ Hin) as [Hdom Hline].
  assert (exists reg,
            (clk_domain info = APB1 /\ reg = RCC_APB1ENR \/
             clk_domain info = APB2 /\ reg = RCC_APB2ENR) /\
            array_get enable_regs (clk_domain info) = Some reg)
    as (reg & Hpair & Hreg).
  { destruct Hdom as [Hd | Hd]; [exists RCC_APB1ENR | exists RCC_APB2ENR];
      (split; [auto | by rewrite Hd]). }
  exists reg. split; [exact Hpair|]. cbn zeta.
  rewrite (rcc_clk_enable_step hdr d info reg) by done.
  rewrite set_bits_regfile, u32_BIT by done. cbn.
  repeat split.
  - intros i Hi. rewrite regfile_set_eq, Z.lor_spec, Z.pow2_bits_eqb by lia.
    case_bool_decide as Hil.
    + subst i. rewrite Z.eqb_refl. apply orb_true_r.
    + assert ((line_num info =? i) = false) as -> by (apply Z.eqb_neq; congruence).
      apply orb_false_r.
  - intros a Ha. by apply regfile_set_ne.
Qed.

Lemma rcc_clk_enable_sets_exactly_its_line_witness :
  rcc_h_ok sample_h /\
  (RCC_USART2, {| clk_domain := APB1; line_num := 17 |}) ∈ rcc_dev_inits /\
  let r := rcc_clk_enable sample_h 7 zero_regs in
  result r = Returned tt /\
  trace r = [EvRead RCC_APB1ENR 0; EvWrite RCC_APB1ENR (2 ^ 17)] /\
  (forall i, 0 <= i ->
     Z.testbit (hw r RCC_APB1ENR) i =
     if bool_decide (i = 17) then true else Z.testbit 0 i) /\
  (forall a, a <> RCC_APB1ENR -> hw r a = 0).
Proof.
  split; [exact sample_h_ok|].
  split; [repeat constructor|].
  destruct (rcc_clk_enable_sets_exactly_its_line sample_h RCC_USART2
              {| clk_domain := APB1; line_num := 17 |} zero_regs sample_h_ok
              ltac:(repeat constructor))
    as (reg & [[_ ->] | [Hdom _]] & Hrun); [exact Hrun | discriminate Hdom].
Defined.

(** C7.  [rcc_clk_enable] is idempotent: for every identifier of the device
    table and every register state, a second call returns and leaves every
    register as the first call left it.  On a zeroed APB2 enable register the
    first call for [RCC_GPIOA] leaves exactly bit 2 set (the value 4), and the
    second call leaves the same value. *)
Theorem rcc_clk_enable_idempotent hdr d info (regs : regfile) :
  rcc_h_ok hdr -> (d, info) ∈ rcc_dev_inits ->
  let once := rcc_clk_enable hdr (Z.of_nat (dev_num hdr d)) regs in
  let twice := rcc_clk_enable hdr (Z.of_nat (dev_num hdr d)) (hw once) in
  (result once = Returned tt /\ result twice = Returned tt /\
   forall a, hw twice a = hw once a) /\
  (regs RCC_APB2ENR = 0 ->
   let gpioa := Z.of_nat (dev_num hdr RCC_GPIOA) in
   let first := rcc_clk_enable hdr gpioa regs in
   let second := rcc_clk_enable hdr gpioa (hw first) in
   hw first RCC_APB2ENR = 4 /\
   (forall i, Z.testbit (hw first RCC_APB2ENR) i = bool_decide (i = 2)) /\
   hw second RCC_APB2ENR = hw first RCC_APB2ENR).
Proof.
  intros Hok Hin. split.
  - destruct (rcc_dev_inits_shape _ _ Hin) as [Hdom Hline].
    destruct (enable_regs_defined _ Hdom) as (reg & Hreg & _).
    rewrite !(rcc_clk_enable_step hdr d info reg) by done.
    rewrite !set_bits_regfile. cbn. repeat split.
    intros a. rewrite regfile_set_eq. unfold regfile_set.
    destruct (a =? reg); [|done].
    by rewrite <- Z.lor_assoc, Z.lor_diag.
  - intros Hzero.
    assert ((RCC_GPIOA, {| clk_domain := APB2; line_num := 2 |}) ∈ rcc_dev_inits)
      as Hgpioa by repeat constructor.
    cbn zeta.
    rewrite !(fun h => rcc_clk_enable_step hdr RCC_GPIOA _ RCC_APB2ENR h Hok Hgpioa eq_refl).
    rewrite !set_bits_regfile. cbn -[Z.testbit].
    rewrite !regfile_set_eq, Hzero. repeat split.
    intros i. destruct (Z.ltb_spec i 0).
    + rewrite Z.testbit_neg_r by done. by rewrite bool_decide_false by lia.
    + rewrite Z.lor_0_l. apply BIT_testbit; lia.
Qed.

Lemma rcc_clk_enable_idempotent_witness :
  let once := rcc_clk_enable sample_h 0 zero_regs in
  let twice := rcc_clk_enable sample_h 0 (hw once) in
  (result once = Returned tt /\ result twice = Returned tt /\
   forall a, hw twice a = hw once a) /\
  hw once RCC_APB2ENR = 4 /\ hw twice RCC_APB2ENR = 4.
Proof.
  pose proof (rcc_clk_enable_idempotent sample_h RCC_GPIOA
                {| clk_domain := APB2; line_num := 2 |} zero_regs sample_h_ok
                ltac:(repeat constructor)) as [Hsame Hgpioa].
  split; [exact Hsame|].
  destruct (Hgpioa eq_refl) as (Hfirst & _ & Hsecond).
  split; [exact Hfirst|]. etransitivity; [exact Hsecond | exact Hfirst].
Defined.

(** ** Peripheral reset *)

(** C5.  For every identifier [d] of the device table, [rcc_reset_dev]
    returns after writing the reset register of [d]'s bus domain,
    [RCC_APB1RSTR] for a device on APB1 and [RCC_APB2RSTR] for a device on
    APB2, twice: first the value read with bit [line_num] set, then that
    value with the bit cleared.  After the call the bit is clear, every
    other register is unchanged, and a 32-bit register whose bit was clear
    before the call holds its old value again. *)
Theorem rcc_reset_dev_pulse hdr d info (regs : regfile) :
  rcc_h_ok hdr -> (d, info) ∈ rcc_dev_inits ->
  exists reg,
    (clk_domain info = APB1 /\ reg = RCC_APB1RSTR \/
     clk_domain info = APB2 /\ reg = RCC_APB2RSTR) /\
    let line := line_num info in
    let old := regs reg in
    let raised := Z.lor old (2 ^ line) in
    let r := rcc_reset_dev hdr (Z.of_nat (dev_num hdr d)) regs in
    result r = Returned tt /\
    trace r = [EvRead reg old; EvWrite reg raised;
               EvRead reg raised; EvWrite reg (Z.land raised (not32 (2 ^ line)))] /\
    Z.testbit raised line = true /\
    Z.testbit (hw r reg) line = false /\
    (0 <= old < 2 ^ 32 -> Z.testbit old line = false -> hw r reg = old) /\
    (forall a, a <> reg -> hw r a = regs a).
Proof.
  intros Hok Hin.
  destruct (rcc_dev_inits_shape _ _ Hin) as [Hdom Hline].
  assert (exists reg,
            (clk_domain info = APB1 /\ reg = RCC_APB1RSTR \/
             clk_domain info = APB2 /\ reg = RCC_APB2RSTR) /\
            array_get reset_regs (clk_domain info) = Some reg)
    as (reg & Hpair & Hreg).
  { destruct Hdom as [Hd | Hd]; [exists RCC_APB1RSTR | exists RCC_APB2RSTR];
      (split; [auto | by rewrite Hd]). }
  exists reg. split; [exact Hpair|]. cbn zeta.
  rewrite (rcc_reset_dev_step hdr d info reg) by done.
  unfold mbind, prog_bind. rewrite set_bits_regfile. cbn [result hw trace].
  rewrite clear_bits_regfile. cbn [result hw trace app].
  rewrite !regfile_set_eq, u32_BIT, !BIT_pow2 by done.
  assert (forall i, 0 <= i ->
            Z.testbit (Z.land (Z.lor (regs reg) (2 ^ line_num info))
                              (not32 (2 ^ line_num info))) i =
            (Z.testbit (regs reg) i || bool_decide (i = line_num info))
            && (bool_decide (i < 32) && negb (bool_decide (i = line_num info))))
    as Hbits.
  { intros i Hi.
    rewrite Z.land_spec, Z.lor_spec, not32_testbit, Z.pow2_bits_eqb by lia.
    assert ((line_num info =? i) = bool_decide (i = line_num info)) as ->; [|done].
    case_bool_decide; subst;
      [apply Z.eqb_refl | apply Z.eqb_neq; congruence]. }
  repeat split.
  - rewrite Z.lor_spec, Z.pow2_bits_eqb, Z.eqb_refl by lia. apply orb_true_r.
  - rewrite Hbits by lia. rewrite (bool_decide_true (_ = _)) by done.
    cbn. by rewrite !andb_false_r.
  - intros Hold Hclear. apply Z.bits_inj'. intros i Hi. rewrite Hbits by done.
    case_bool_decide as Heq; [subst i|].
    + rewrite Hclear. cbn. by rewrite andb_false_r.
    + rewrite orb_false_r. cbn. rewrite andb_true_r. case_bool_decide.
      * apply andb_true_r.
      * rewrite andb_false_r. symmetry. apply testbit_above; [done | lia].
  - intros a Ha. by rewrite !regfile_set_ne.
Qed.

Lemma rcc_reset_dev_pulse_witness :
  let r := rcc_reset_dev sample_h 8 zero_regs in
  result r = Returned tt /\
  trace r = [EvRead RCC_APB1RSTR 0; EvWrite RCC_APB1RSTR (2 ^ 18);
             EvRead RCC_APB1RSTR (2 ^ 18); EvWrite RCC_APB1RSTR 0] /\
  hw r RCC_APB1RSTR = 0 /\
  (forall a, a <> RCC_APB1RSTR -> hw r a = 0).
Proof.
  destruct (rcc_reset_dev_pulse sample_h RCC_USART3
              {| clk_domain := APB1; line_num := 18 |} zero_regs sample_h_ok
              ltac:(repeat constructor))
    as (reg & [[_ ->] | [Hdom _]] & Hres & Htrace & _ & _ & Hsame & Hframe);
    [|discriminate Hdom].
  split; [exact Hres|]. split; [exact Htrace|].
  split; [|exact Hframe].
  apply Hsame; [split; [reflexivity | reflexivity] | reflexivity].
Defined.

(** ** Prescaler configuration *)

(** C4.  For every prescaler selector [p] of the mask table and every
    divider, [rcc_set_prescaler] returns after one read and one write of the
    configuration register; the value written is the value read with [p]'s
    mask cleared and the divider or-ed in, no other register changes, the
    bits inside the mask become the divider's, and when the divider lies
    within the mask every bit of the 32-bit register outside the mask keeps
    its value. *)
Theorem rcc_set_prescaler_frame hdr p mask divider (regs : regfile) :
  rcc_h_ok hdr -> (p, mask) ∈ masks_inits ->
  let old := regs RCC_CFGR in
  let r := rcc_set_prescaler hdr (Z.of_nat (prescaler_num hdr p)) divider regs in
  result r = Returned tt /\
  trace r = [EvRead RCC_CFGR old;
             EvWrite RCC_CFGR (Z.lor (Z.land old (not32 mask)) divider)] /\
  hw r RCC_CFGR = Z.lor (Z.land old (not32 mask)) divider /\
  (forall a, a <> RCC_CFGR -> hw r a = regs a) /\
  (forall i, Z.testbit mask i = true ->
     Z.testbit (hw r RCC_CFGR) i = Z.testbit divider i) /\
  (Z.land divider mask = divider ->
   forall i, 0 <= i < 32 -> Z.testbit mask i = false ->
     Z.testbit (hw r RCC_CFGR) i = Z.testbit old i).
Proof.
  intros Hok Hin. cbn zeta. unfold rcc_set_prescaler.
  rewrite (bind_returned _ _ regs (regs RCC_CFGR) regs
             [EvRead RCC_CFGR (regs RCC_CFGR)]) by done.
  rewrite (bind_silent _ _ regs mask).
  2:{ apply elem_inside. rewrite array_get_of_nat. by apply masks_lookup. }
  cbn. rewrite regfile_set_eq. repeat split.
  - intros a Ha. by apply regfile_set_ne.
  - intros i Hmask.
    assert (0 <= i) as Hi.
    { destruct (Z.ltb_spec i 0); [|done]. by rewrite Z.testbit_neg_r in Hmask. }
    rewrite Z.lor_spec, Z.land_spec, not32_testbit, Hmask by done.
    cbn. by rewrite !andb_false_r.
  - intros Hwithin i Hi Hmask.
    assert (Z.testbit divider i = false) as Hdiv.
    { rewrite <- Hwithin, Z.land_spec, Hmask. apply andb_false_r. }
    rewrite Z.lor_spec, Z.land_spec, not32_testbit, Hmask, Hdiv by lia.
    rewrite bool_decide_true by lia. cbn. by rewrite orb_false_r, andb_true_r.
Qed.

Lemma rcc_set_prescaler_frame_witness :
  let regs : regfile := fun _ => 0xFFFFFFFF in
  let r := rcc_set_prescaler sample_h 1 (Z.shiftl 0x4 8) regs in
  result r = Returned tt /\
  hw r RCC_CFGR = 0xFFFFFCFF /\
  (forall i, 0 <= i < 32 -> Z.testbit RCC_CFGR_PPRE1 i = false ->
     Z.testbit (hw r RCC_CFGR) i = Z.testbit 0xFFFFFFFF i).
Proof.
  destruct (rcc_set_prescaler_frame sample_h RCC_PRESCALER_APB1 RCC_CFGR_PPRE1
              (Z.shiftl 0x4 8) (fun _ => 0xFFFFFFFF) sample_h_ok
              ltac:(repeat constructor))
    as (Hres & _ & Hval & _ & _ & Hframe).
  split; [exact Hres|]. split; [exact Hval|]. exact (Hframe eq_refl).
Defined.

(** ** The device descriptor table *)

Lemma rcc_dev_table_entry_domain hdr i info :
  rcc_dev_table hdr !! i = Some info ->
  clk_domain info = APB1 \/ clk_domain info = APB2.
Proof.
  intros Hi.
  assert (Forall (fun e => clk_domain e = APB1 \/ clk_domain e = APB2)
                 (rcc_dev_table hdr)) as Hall.
  { apply designate_Forall; [by left|].
    rewrite <- list_fmap_compose. apply Forall_fmap, Forall_forall.
    intros [d e] Hin. by destruct (rcc_dev_inits_shape _ _ Hin). }
  by apply (Forall_lookup_1 _ _ _ _ Hall Hi).
Qed.

Section AnyBus.
Context {H : Type} `{Bus H}.

Lemma read_returns addr (h : H) :
  exists v h', __read addr h = Run (Returned v) h' [EvRead addr v].
Proof. unfold __read. destruct (bus_read addr h) as [v h']. by exists v, h'. Qed.

Lemma set_bits_returns addr mask (h : H) :
  result (__set_bits addr mask h) = Returned tt.
Proof.
  unfold __set_bits. destruct (read_returns addr h) as (v & h' & Hr).
  by rewrite (bind_returned _ _ _ _ _ _ Hr).
Qed.

Lemma clear_bits_returns addr mask (h : H) :
  result (__clear_bits addr mask h) = Returned tt.
Proof.
  unfold __clear_bits. destruct (read_returns addr h) as (v & h' & Hr).
  by rewrite (bind_returned _ _ _ _ _ _ Hr).
Qed.

Lemma bind_result_returned {A B} (m : prog H A) (f : A -> prog H B) h a :
  result (m h) = Returned a ->
  result ((m ≫= f) h) = result (f a (hw (m h))).
Proof. intros Hm. unfold mbind, prog_bind. by rewrite Hm. Qed.

(** Inside the table, both operations run to completion. *)
Lemma rcc_clk_enable_inside hdr id info (h : H) :
  array_get (rcc_dev_table hdr) id = Some info ->
  result (rcc_clk_enable hdr id h) = Returned tt.
Proof.
  intros Hget. pose proof Hget as [_ Hdom%rcc_dev_table_entry_domain]%array_get_Some.
  destruct (enable_regs_defined _ Hdom) as (reg & Hreg & _).
  unfold rcc_clk_enable.
  rewrite (bind_silent _ _ h info) by (by apply elem_inside).
  rewrite (bind_silent _ _ h reg) by (by apply elem_inside).
  apply set_bits_returns.
Qed.

Lemma rcc_reset_dev_inside hdr id info (h : H) :
  array_get (rcc_dev_table hdr) id = Some info ->
  result (rcc_reset_dev hdr id h) = Returned tt.
Proof.
  intros Hget. pose proof Hget as [_ Hdom%rcc_dev_table_entry_domain]%array_get_Some.
  destruct (reset_regs_defined _ Hdom) as (reg & Hreg & _).
  unfold rcc_reset_dev.
  rewrite (bind_silent _ _ h info) by (by apply elem_inside).
  rewrite (bind_silent _ _ h reg) by (by apply elem_inside).
  rewrite (bind_result_returned _ _ _ tt) by apply set_bits_returns.
  rewrite (bind_silent _ _ _ reg) by (by apply elem_inside).
  apply clear_bits_returns.
Qed.

(** Past the end of the table, the first thing either operation does is
    an array read out of bounds. *)
Lemma rcc_clk_enable_outside hdr id (h : H) :
  array_get (rcc_dev_table hdr) id = None ->
  rcc_clk_enable hdr id h = Run Undefined h [].
Proof.
  intros Hget. unfold rcc_clk_enable, mbind, prog_bind.
  by rewrite (elem_outside _ _ _ Hget).
Qed.

Lemma rcc_reset_dev_outside hdr id (h : H) :
  array_get (rcc_dev_table hdr) id = None ->
  rcc_reset_dev hdr id h = Run Undefined h [].
Proof.
  intros Hget. unfold rcc_reset_dev, mbind, prog_bind.
  by rewrite (elem_outside _ _ _ Hget).
Qed.
End AnyBus.

(** C8.  Under any numbering of the identifiers by distinct values, every
    identifier rcc.c names has exactly one initializer in the device table
    and indexes that entry, and two distinct identifiers whose entries have
    the same [clk_domain] have different [line_num]s. *)
Theorem rcc_dev_table_lines_unique hdr :
  rcc_h_ok hdr ->
  (forall d : rcc_dev,
     exists info,
       filter (fun e => e.1 = d) rcc_dev_inits = [(d, info)] /\
       rcc_dev_table hdr !! dev_num hdr d = Some info) /\
  (forall d1 d2 info1 info2,
     d1 <> d2 ->
     rcc_dev_table hdr !! dev_num hdr d1 = Some info1 ->
     rcc_dev_table hdr !! dev_num hdr d2 = Some info2 ->
     clk_domain info1 = clk_domain info2 ->
     line_num info1 <> line_num info2).
Proof.
  intros Hok.
  assert (forall d : rcc_dev,
            exists info,
              filter (fun e => e.1 = d) rcc_dev_inits = [(d, info)] /\
              (d, info) ∈ rcc_dev_inits) as Hone.
  { intros []; eexists; (split; [reflexivity | repeat constructor]). }
  split.
  - intros d. destruct (Hone d) as (info & Hfilter & Hin).
    exists info. split; [done|]. by apply rcc_dev_table_lookup.
  - intros d1 d2 info1 info2 Hne H1 H2.
    destruct (Hone d1) as (e1 & Hf1 & Hin1), (Hone d2) as (e2 & Hf2 & Hin2).
    rewrite (rcc_dev_table_lookup _ _ _ Hok Hin1) in H1.
    rewrite (rcc_dev_table_lookup _ _ _ Hok Hin2) in H2.
    injection H1 as <-. injection H2 as <-.
    destruct d1, d2; try done;
      vm_compute in Hf1, Hf2; injection Hf1 as <-; injection Hf2 as <-;
      cbn; lia.
Qed.

Lemma rcc_dev_table_lines_unique_witness :
  (exists info,
     filter (fun e => e.1 = RCC_GPIOA) rcc_dev_inits = [(RCC_GPIOA, info)] /\
     rcc_dev_table sample_h !! 0%nat = Some info) /\
  rcc_dev_table sample_h !! 0%nat = Some {| clk_domain := APB2; line_num := 2 |} /\
  rcc_dev_table sample_h !! 1%nat = Some {| clk_domain := APB2; line_num := 3 |} /\
  clk_domain {| clk_domain := APB2; line_num := 2 |} =
  clk_domain {| clk_domain := APB2; line_num := 3 |} /\
  line_num {| clk_domain := APB2; line_num := 2 |} <>
  line_num {| clk_domain := APB2; line_num := 3 |}.
Proof.
  destruct (rcc_dev_table_lines_unique sample_h sample_h_ok) as [Hone Hlines].
  split; [exact (Hone RCC_GPIOA)|].
  split; [reflexivity|]. split; [reflexivity|]. split; [reflexivity|].
  apply (Hlines RCC_GPIOA RCC_GPIOB); [discriminate | reflexivity ..].
Defined.

(** C10.  Every element of the device table, whatever the numbering of the
    identifiers, has [clk_domain] [APB1] or [APB2]; so for every index inside
    the table [rcc_reset_dev] indexes the two-element [reset_regs] in bounds,
    finds one of the two reset registers there, and returns. *)
Theorem rcc_dev_table_has_no_AHB hdr i info :
  rcc_dev_table hdr !! i = Some info ->
  (clk_domain info = APB1 \/ clk_domain info = APB2) /\
  length reset_regs = 2%nat /\
  (Z.to_nat (clk_domain info) < length reset_regs)%nat /\
  (exists reg, array_get reset_regs (clk_domain info) = Some reg /\
               (reg = RCC_APB1RSTR \/ reg = RCC_APB2RSTR)) /\
  (forall regs : regfile, result (rcc_reset_dev hdr (Z.of_nat i) regs) = Returned tt).
Proof.
  intros Hi. pose proof (rcc_dev_table_entry_domain _ _ _ Hi) as Hdom.
  split; [done|]. split; [done|]. split.
  { destruct Hdom as [Hd | Hd]; rewrite Hd; vm_compute; lia. }
  split; [by apply reset_regs_defined|].
  intros regs. apply (rcc_reset_dev_inside hdr _ info).
  by rewrite array_get_of_nat.
Qed.

Lemma rcc_dev_table_has_no_AHB_witness :
  rcc_dev_table sample_h !! 8%nat = Some {| clk_domain := APB1; line_num := 18 |} /\
  (exists reg, array_get reset_regs APB1 = Some reg /\
               (reg = RCC_APB1RSTR \/ reg = RCC_APB2RSTR)) /\
  result (rcc_reset_dev sample_h 8 zero_regs) = Returned tt.
Proof.
  assert (rcc_dev_table sample_h !! 8%nat =
          Some {| clk_domain := APB1; line_num := 18 |}) as Hi by reflexivity.
  split; [exact Hi|].
  destruct (rcc_dev_table_has_no_AHB sample_h 8 _ Hi) as (_ & _ & _ & Hreg & Hret).
  split; [exact Hreg | exact (Hret zero_regs)].
Defined.

(** ** Accesses through a table entry *)

Section EntryAccess.
Context {H : Type} `{Bus H}.

Lemma set_bits_run addr mask (h : H) :
  __set_bits addr mask h =
  Run (Returned tt)
      (bus_write addr (Z.lor (bus_read addr h).1 (u32 mask)) (bus_read addr h).2)
      [EvRead addr (bus_read addr h).1;
       EvWrite addr (Z.lor (bus_read addr h).1 (u32 mask))].
Proof.
  unfold __set_bits, mbind, prog_bind, __read, __write.
  by destruct (bus_read addr h).
Qed.

Lemma clear_bits_run addr mask (h : H) :
  __clear_bits addr mask h =
  Run (Returned tt)
      (bus_write addr (Z.land (bus_read addr h).1 (not32 mask)) (bus_read addr h).2)
      [EvRead addr (bus_read addr h).1;
       EvWrite addr (Z.land (bus_read addr h).1 (not32 mask))].
Proof.
  unfold __clear_bits, mbind, prog_bind, __read, __write.
  by destruct (bus_read addr h).
Qed.

(** An index inside the device table selects its element, whether or not an
    identifier designates it. *)
Lemma rcc_clk_enable_entry hdr id info reg (h : H) :
  array_get (rcc_dev_table hdr) id = Some info ->
  array_get enable_regs (clk_domain info) = Some reg ->
  rcc_clk_enable hdr id h = __set_bits reg (BIT (line_num info)) h.
Proof.
  intros Hinfo Hreg. unfold rcc_clk_enable.
  rewrite (bind_silent _ _ h info) by (by apply elem_inside).
  by rewrite (bind_silent _ _ h reg) by (by apply elem_inside).
Qed.

Lemma rcc_reset_dev_entry hdr id info reg (h : H) :
  array_get (rcc_dev_table hdr) id = Some info ->
  array_get reset_regs (clk_domain info) = Some reg ->
  rcc_reset_dev hdr id h =
  (__set_bits reg (BIT (line_num info));;
   __clear_bits reg (BIT (line_num info))) h.
Proof.
  intros Hinfo Hreg. unfold rcc_reset_dev.
  rewrite (bind_silent _ _ h info) by (by apply elem_inside).
  rewrite (bind_silent _ _ h reg) by (by apply elem_inside).
  rewrite !(bind_returned _ _ _ _ _ _ (set_bits_run reg _ h)).
  by rewrite (bind_silent _ _ _ reg) by (by apply elem_inside).
Qed.
End EntryAccess.

(** ** Identifiers outside the table *)

(** C6, as stated, fails.  With the enumerators numbered 0 to 12, the
    identifier 13 is past the end of the device table, and neither
    [rcc_clk_enable] nor [rcc_reset_dev] stops in an assertion there. *)
Lemma rcc_dev_num_assertion_counterexample :
  ~ (forall hdr id (regs : regfile),
       rcc_h_ok hdr -> 0 <= id < 2 ^ 32 ->
       array_get (rcc_dev_table hdr) id = None ->
       result (rcc_clk_enable hdr id regs) = Faulted \/
       result (rcc_reset_dev hdr id regs) = Faulted).
Proof.
  intros Hclaim.
  destruct (Hclaim sample_h 13 zero_regs sample_h_ok) as [Hf | Hf];
    [done | reflexivity | discriminate Hf | discriminate Hf].
Qed.

(** C6, amended.  Neither [rcc_clk_enable] nor [rcc_reset_dev] checks its
    identifier, so no call of either ends in a failed assertion.  For an
    index inside the device table both return, having worked on the register
    the entry's domain selects: [rcc_clk_enable] reads the enable register
    ([RCC_APB1ENR] or [RCC_APB2ENR]) and writes it back with the entry's
    line or-ed in, [rcc_reset_dev] sets and then clears that line in the
    reset register ([RCC_APB1RSTR] or [RCC_APB2RSTR]).  For an index outside
    the table there is no assertion either: the table is read out of bounds,
    which C leaves undefined.  [reset_regs] has no [AHB] element. *)
Theorem rcc_dev_num_unchecked {H : Type} `{Bus H} hdr id (h : H) :
  (result (rcc_clk_enable hdr id h) <> Faulted /\
   result (rcc_reset_dev hdr id h) <> Faulted) /\
  (forall info,
     array_get (rcc_dev_table hdr) id = Some info ->
     exists ereg rreg,
       (clk_domain info = APB1 /\ ereg = RCC_APB1ENR /\ rreg = RCC_APB1RSTR \/
        clk_domain info = APB2 /\ ereg = RCC_APB2ENR /\ rreg = RCC_APB2RSTR) /\
       result (rcc_clk_enable hdr id h) = Returned tt /\
       (exists v,
          trace (rcc_clk_enable hdr id h) =
          [EvRead ereg v; EvWrite ereg (Z.lor v (u32 (BIT (line_num info))))]) /\
       result (rcc_reset_dev hdr id h) = Returned tt /\
       (exists v v',
          trace (rcc_reset_dev hdr id h) =
          [EvRead rreg v; EvWrite rreg (Z.lor v (u32 (BIT (line_num info))));
           EvRead rreg v'; EvWrite rreg (Z.land v' (not32 (BIT (line_num info))))])) /\
  (array_get (rcc_dev_table hdr) id = None ->
   result (rcc_clk_enable hdr id h) = Undefined /\
   result (rcc_reset_dev hdr id h) = Undefined) /\
  array_get reset_regs AHB = None.
Proof.
  assert (forall info,
            array_get (rcc_dev_table hdr) id = Some info ->
            exists ereg rreg,
              (clk_domain info = APB1 /\ ereg = RCC_APB1ENR /\ rreg = RCC_APB1RSTR \/
               clk_domain info = APB2 /\ ereg = RCC_APB2ENR /\ rreg = RCC_APB2RSTR) /\
              result (rcc_clk_enable hdr id h) = Returned tt /\
              (exists v,
                 trace (rcc_clk_enable hdr id h) =
                 [EvRead ereg v; EvWrite ereg (Z.lor v (u32 (BIT (line_num info))))]) /\
              result (rcc_reset_dev hdr id h) = Returned tt /\
              (exists v v',
                 trace (rcc_reset_dev hdr id h) =
                 [EvRead rreg v; EvWrite rreg (Z.lor v (u32 (BIT (line_num info))));
                  EvRead rreg v';
                  EvWrite rreg (Z.land v' (not32 (BIT (line_num info))))])) as Hin.
  { intros info Hinfo.
    pose proof Hinfo as [_ Hdom%rcc_dev_table_entry_domain]%array_get_Some.
    assert (exists ereg rreg,
              (clk_domain info = APB1 /\ ereg = RCC_APB1ENR /\ rreg = RCC_APB1RSTR \/
               clk_domain info = APB2 /\ ereg = RCC_APB2ENR /\ rreg = RCC_APB2RSTR) /\
              array_get enable_regs (clk_domain info) = Some ereg /\
              array_get reset_regs (clk_domain info) = Some rreg)
      as (ereg & rreg & Hpair & Hereg & Hrreg).
    { destruct Hdom as [Hd | Hd];
        [exists RCC_APB1ENR, RCC_APB1RSTR | exists RCC_APB2ENR, RCC_APB2RSTR];
        (split; [auto | by rewrite Hd]). }
    exists ereg, rreg. split; [exact Hpair|].
    rewrite (rcc_clk_enable_entry hdr id info ereg h Hinfo Hereg).
    rewrite (rcc_reset_dev_entry hdr id info rreg h Hinfo Hrreg).
    rewrite set_bits_run. unfold mbind, prog_bind. rewrite set_bits_run.
    cbn [result hw trace]. rewrite clear_bits_run. cbn [result hw trace app].
    split; [done|]. split; [by eexists|]. split; [done|]. by eexists _, _. }
  assert (array_get (rcc_dev_table hdr) id = None ->
          result (rcc_clk_enable hdr id h) = Undefined /\
          result (rcc_reset_dev hdr id h) = Undefined) as Hout.
  { intros Hget. by rewrite rcc_clk_enable_outside, rcc_reset_dev_outside. }
  split; [|split; [done | split; [done | reflexivity]]].
  destruct (array_get (rcc_dev_table hdr) id) as [info|] eqn:Hget.
  - destruct (Hin info eq_refl) as (_ & _ & _ & -> & _ & -> & _). by split.
  - destruct (Hout eq_refl) as [-> ->]. by split.
Qed.

Lemma rcc_dev_num_unchecked_witness :
  (result (rcc_clk_enable sample_h 12 zero_regs) = Returned tt /\
   (exists v, trace (rcc_clk_enable sample_h 12 zero_regs) =
              [EvRead RCC_APB1ENR v; EvWrite RCC_APB1ENR (Z.lor v 4)]) /\
   result (rcc_reset_dev sample_h 12 zero_regs) = Returned tt /\
   (exists v v', trace (rcc_reset_dev sample_h 12 zero_regs) =
                 [EvRead RCC_APB1RSTR v; EvWrite RCC_APB1RSTR (Z.lor v 4);
                  EvRead RCC_APB1RSTR v';
                  EvWrite RCC_APB1RSTR (Z.land v' 0xFFFFFFFB)])) /\
  result (rcc_clk_enable sample_h 13 zero_regs) = Undefined /\
  result (rcc_reset_dev sample_h 13 zero_regs) = Undefined.
Proof.
  destruct (rcc_dev_num_unchecked sample_h 12 zero_regs) as (_ & Hin & _).
  destruct (rcc_dev_num_unchecked sample_h 13 zero_regs) as (_ & _ & Hout & _).
  destruct (Hin {| clk_domain := APB1; line_num := 2 |} eq_refl)
    as (ereg & rreg & [(_ & -> & ->) | (Hdom & _)] & Hrun); [|discriminate Hdom].
  split; [exact Hrun | exact (Hout eq_refl)].
Defined.

(** ** Clock initialisation: the precondition *)

(** C2.  When [sysclk_src] is not [RCC_CLKSRC_PLL] or [pll_src] is not
    [RCC_PLLSRC_HSE], [rcc_clk_init] stops in the assertion with an empty
    trace and the hardware state it was given: no register is written (or
    read) on that path. *)
Theorem rcc_clk_init_rejects {H : Type} `{Bus H} hdr fuel
    sysclk_src pll_src pll_mul (h : H) :
  sysclk_src <> RCC_CLKSRC_PLL hdr \/ pll_src <> RCC_PLLSRC_HSE hdr ->
  rcc_clk_init hdr fuel sysclk_src pll_src pll_mul h = Run Faulted h [].
Proof.
  intros Hbad.
  assert ((sysclk_src =? RCC_CLKSRC_PLL hdr) && (pll_src =? RCC_PLLSRC_HSE hdr)
          = false) as Hcond.
  { apply andb_false_iff. destruct Hbad as [Hne | Hne];
      [left | right]; by apply Z.eqb_neq. }
  unfold rcc_clk_init, mbind at 1, prog_bind, ASSERT. by rewrite Hcond.
Qed.

Lemma rcc_clk_init_rejects_witness :
  rcc_clk_init sample_h 5 0x1 (Z.shiftl 0x1 16) (Z.shiftl 0x7 18) board
  = Run Faulted board [].
Proof.
  apply (rcc_clk_init_rejects sample_h 5 0x1 (Z.shiftl 0x1 16) (Z.shiftl 0x7 18) board).
  left. discriminate.
Defined.

(** ** Clock initialisation: the busy-wait loops *)

Section ClockInit.
Context {H : Type} `{Bus H}.

Lemma bind_stuck {A B} (m : prog H A) (f : A -> prog H B) h :
  result (m h) = Spinning ->
  (m ≫= f) h = Run Spinning (hw (m h)) (trace (m h)).
Proof. intros Hm. unfold mbind, prog_bind. by rewrite Hm. Qed.

Lemma bind_through {A B} (m : prog H A) (f : A -> prog H B) h a :
  result (m h) = Returned a ->
  (m ≫= f) h =
  Run (result (f a (hw (m h)))) (hw (f a (hw (m h))))
      (trace (m h) ++ trace (f a (hw (m h)))).
Proof. intros Hm. unfold mbind, prog_bind. by rewrite Hm. Qed.

Lemma write_then {B} addr val (k : prog H B) (h : H) :
  (__write addr val;; k) h =
  Run (result (k (bus_write addr val h))) (hw (k (bus_write addr val h)))
      (EvWrite addr val :: trace (k (bus_write addr val h))).
Proof. reflexivity. Qed.

(** A polling loop either uses up its fuel on busy reads, or ends on the
    first read that is not busy. *)
Lemma poll_run fuel addr busy (h : H) :
  let r := while_ fuel (v ← __read addr; mret (busy v)) (mret tt) h in
  (result r = Spinning /\ busy_reads addr busy (trace r) /\
   length (trace r) = fuel) \/
  (exists p v, result r = Returned tt /\ trace r = p ++ [EvRead addr v] /\
               busy v = false /\ busy_reads addr busy p).
Proof.
  revert h. induction fuel as [|fuel IH]; intros h.
  - left. repeat split. constructor.
  - cbn [while_].
    destruct (read_returns addr h) as (v & h' & Hread).
    assert ((v ← __read addr; mret (busy v)) h
            = Run (Returned (busy v)) h' [EvRead addr v]) as Hcond.
    { by rewrite (bind_returned _ _ _ _ _ _ Hread). }
    rewrite (bind_returned _ _ _ _ _ _ Hcond).
    destruct (busy v) eqn:Hbusy.
    + rewrite (bind_silent _ _ h' tt) by done.
      cbn [result trace].
      destruct (IH h') as [(Hres & Hall & Hlen) | (p & w & Hres & Htr & Hw & Hall)].
      * left. split; [done|]. split.
        -- constructor; [by exists v | done].
        -- cbn. by rewrite Hlen.
      * right. exists (EvRead addr v :: p), w. split; [done|].
        split; [by rewrite Htr|]. split; [done|].
        constructor; [by exists v | done].
    + right. exists [], v. repeat split; try done. constructor.
Qed.

(** Once the assertion has passed, the run has one of four shapes. *)
Lemma rcc_clk_init_shape hdr fuel pll_mul (h : H) :
  let r := rcc_clk_init hdr fuel (RCC_CLKSRC_PLL hdr) (RCC_PLLSRC_HSE hdr)
                        pll_mul h in
  clk_init_trace (RCC_PLLSRC_HSE hdr) pll_mul (result r) (trace r).
Proof.
  cbn zeta. unfold rcc_clk_init.
  rewrite (bind_silent _ _ h tt) by (unfold ASSERT; by rewrite !Z.eqb_refl).
  unfold RCC_READ_CR, RCC_READ_CFGR, RCC_WRITE_CR, RCC_WRITE_CFGR.
  destruct (read_returns RCC_CR h) as (cr0 & h0 & Hread).
  rewrite (bind_returned _ _ _ _ _ _ Hread). rewrite !write_then.
  cbn [result hw trace app].
  set (h2 := bus_write RCC_CR _ _).
  exists cr0.
  destruct (poll_run fuel RCC_CR hse_busy h2)
    as [(Hres1 & Hall1 & _) | (p1 & v1 & Hres1 & Htr1 & Hv1 & Hall1)].
  { rewrite (bind_stuck _ _ _ Hres1). cbn [result trace].
    eexists. split; [exact Hall1|]. left. by split. }
  rewrite (bind_through _ _ _ tt Hres1). cbn [result hw trace].
  rewrite Htr1. set (h3 := hw _). rewrite write_then. cbn [result hw trace].
  set (h4 := bus_write RCC_CR _ _).
  exists p1. split; [exact Hall1|]. right. exists v1.
  destruct (poll_run fuel RCC_CR pll_busy h4)
    as [(Hres2 & Hall2 & _) | (p2 & v2 & Hres2 & Htr2 & Hv2 & Hall2)].
  { rewrite (bind_stuck _ _ _ Hres2). cbn [result trace].
    eexists. split; [exact Hv1|]. split; [exact Hall2|]. left.
    split; [done|]. cbn. by rewrite <- !app_assoc. }
  rewrite (bind_through _ _ _ tt Hres2). cbn [result hw trace].
  rewrite Htr2. set (h5 := hw _). rewrite write_then. cbn [result hw trace].
  set (h6 := bus_write RCC_CFGR _ _).
  exists p2. split; [exact Hv1|]. split; [exact Hall2|]. right. exists v2.
  destruct (poll_run fuel RCC_CFGR sw_busy h6)
    as [(Hres3 & Hall3 & _) | (p3 & v3 & Hres3 & Htr3 & Hv3 & Hall3)].
  { eexists. split; [exact Hv2|]. split; [exact Hall3|]. left.
    split; [exact Hres3|]. cbn. by rewrite <- !app_assoc. }
  exists p3. split; [exact Hv2|]. split; [exact Hall3|]. right. exists v3.
  split; [exact Hv3|]. split; [exact Hres3|].
  unfold sw_busy in Htr3. rewrite Htr3. cbn. by rewrite <- !app_assoc.
Qed.
End ClockInit.

(** ** Writes in a trace *)

Lemma writes_to_app a (l k : list event) :
  writes_to a (l ++ k) = writes_to a l ++ writes_to a k.
Proof. apply omap_app. Qed.

Lemma writes_to_snoc_write a q v :
  writes_to a (q ++ [EvWrite a v]) = writes_to a q ++ [v].
Proof. rewrite writes_to_app. cbn. by rewrite Z.eqb_refl. Qed.

Lemma writes_to_busy_reads a addr busy p :
  busy_reads addr busy p -> writes_to a p = [].
Proof. induction 1 as [|e p (v & -> & _) _ IH]; [done | exact IH]. Qed.

Lemma writes_to_prefix a (p t : list event) :
  p `prefix_of` t -> writes_to a p `prefix_of` writes_to a t.
Proof. intros [k ->]. rewrite writes_to_app. by apply prefix_app_r. Qed.

(** A trace with at most one write to [a] has no second one. *)
Lemma second_write_absent a t q v :
  (length (writes_to a t) <= 1)%nat ->
  q ++ [EvWrite a v] `prefix_of` t -> writes_to a q = [].
Proof.
  intros Hlen Hpre%(writes_to_prefix a)%prefix_length.
  rewrite writes_to_snoc_write, length_app in Hpre. cbn in Hpre.
  apply nil_length_inv. lia.
Qed.

(** In [A ++ [e; EvWrite a w] ++ B], where [A] holds at most one write to
    [a] and [e] and [B] none, the second write to [a] is [EvWrite a w] and
    the event just before it is [e]. *)
Lemma second_write_gated a A e w B q v :
  (length (writes_to a A) <= 1)%nat ->
  writes_to a [e] = [] -> writes_to a B = [] ->
  q ++ [EvWrite a v] `prefix_of` A ++ [e; EvWrite a w] ++ B ->
  writes_to a q <> [] ->
  q = A ++ [e] /\ v = w.
Proof.
  intros HA He HB [k Hk] Hq.
  change (A ++ [e; EvWrite a w] ++ B)
    with (A ++ [e] ++ EvWrite a w :: B) in Hk.
  rewrite (assoc_L (++)) in Hk.
  apply app_eq_inv in Hk as [(k0 & Hl & _) | (k0 & Hl & Hr)].
  - exfalso. apply Hq, (second_write_absent a (A ++ [e]) q v).
    + rewrite writes_to_app, He, app_nil_r. exact HA.
    + exists k0. exact Hl.
  - destruct k0 as [|x k1].
    + rewrite app_nil_r in Hl. apply app_inj_tail in Hl as [_ <-].
      cbn in He. by rewrite Z.eqb_refl in He.
    + injection Hr as <- HB'.
      destruct k1 as [|y k2 _] using rev_ind.
      * apply app_inj_tail in Hl as [-> [= ->]]. done.
      * exfalso. rewrite app_comm_cons, (assoc_L (++)) in Hl.
        apply app_inj_tail in Hl as [_ <-].
        rewrite HB', !writes_to_app in HB. cbn in HB.
        rewrite Z.eqb_refl in HB. by destruct (writes_to a k2).
Qed.

Lemma land_lor_same a m : Z.land (Z.lor a m) m = m.
Proof.
  apply Z.bits_inj'. intros i _. rewrite Z.land_spec, Z.lor_spec.
  destruct (Z.testbit a i), (Z.testbit m i); done.
Qed.

Lemma switch_field_set cfgr :
  Z.land (Z.lor (Z.land cfgr (not32 RCC_CFGR_SW)) RCC_CFGR_SW_PLL) RCC_CFGR_SW
  = RCC_CFGR_SW_PLL.
Proof.
  rewrite Z.land_lor_distr_l, <- Z.land_assoc.
  change (Z.land (not32 RCC_CFGR_SW) RCC_CFGR_SW) with 0.
  change (Z.land RCC_CFGR_SW_PLL RCC_CFGR_SW) with RCC_CFGR_SW_PLL.
  by rewrite Z.land_0_r.
Qed.

Lemma writes_to_write_same a v l :
  writes_to a (EvWrite a v :: l) = v :: writes_to a l.
Proof. cbn. by rewrite Z.eqb_refl. Qed.

Lemma writes_to_write_other a a' v l :
  a' <> a -> writes_to a (EvWrite a' v :: l) = writes_to a l.
Proof. intros Hne. cbn. by apply Z.eqb_neq in Hne as ->. Qed.

Lemma writes_to_read a a' v l : writes_to a (EvRead a' v :: l) = writes_to a l.
Proof. reflexivity. Qed.

Lemma RCC_CR_CFGR_distinct : RCC_CR <> RCC_CFGR.
Proof. discriminate. Qed.

Lemma RCC_CFGR_CR_distinct : RCC_CFGR <> RCC_CR.
Proof. discriminate. Qed.

Lemma writes_to_nil a : writes_to a [] = [].
Proof. reflexivity. Qed.

Create Rewrite HintDb writes.
#[global] Hint Rewrite writes_to_app writes_to_write_same writes_to_read
  writes_to_nil app_nil_r app_nil_l : writes.
#[global] Hint Rewrite writes_to_write_other
  using (first [exact RCC_CR_CFGR_distinct | exact RCC_CFGR_CR_distinct]) : writes.

Ltac count_writes :=
  autorewrite with writes;
  repeat match goal with
         | Hb : busy_reads _ _ ?p |- context [writes_to ?a ?p] =>
             rewrite (writes_to_busy_reads a _ _ p Hb)
         end;
  autorewrite with writes; cbn [app length]; try done; try lia.

Lemma hse_busy_false v : hse_busy v = false -> Z.land v RCC_CR_HSERDY <> 0.
Proof. unfold hse_busy. apply Z.eqb_neq. Qed.

Lemma pll_busy_false v : pll_busy v = false -> Z.land v RCC_CR_PLLRDY <> 0.
Proof. unfold pll_busy. apply Z.eqb_neq. Qed.

Lemma sw_busy_false v :
  sw_busy v = false -> Z.land v RCC_CFGR_SWS = RCC_CFGR_SWS_PLL.
Proof. unfold sw_busy. intros Hv%negb_false_iff. by apply Z.eqb_eq. Qed.

(** The write that turns the PLL on comes right after a read that shows the
    oscillator ready. *)
Lemma clk_init_trace_pll_gate pll_src pll_mul res t q v :
  clk_init_trace pll_src pll_mul res t ->
  q ++ [EvWrite RCC_CR v] `prefix_of` t -> writes_to RCC_CR q <> [] ->
  Z.land v RCC_CR_PLLON <> 0 /\
  exists q' x, q = q' ++ [EvRead RCC_CR x] /\ Z.land x RCC_CR_HSERDY <> 0.
Proof.
  intros (cr0 & p1 & Hp1 & Hshape) Hpre Hq. cbn zeta in Hshape.
  destruct Hshape as [[_ ->] | (v1 & p2 & Hv1 & Hp2 & Hshape)].
  { apply second_write_absent in Hpre; [done | count_writes]. }
  assert (exists B, writes_to RCC_CR B = [] /\
            t = ([EvRead RCC_CR cr0; EvWrite RCC_CFGR (Z.lor pll_src pll_mul);
                  EvWrite RCC_CR (Z.lor cr0 RCC_CR_HSEON)] ++ p1)
                ++ [EvRead RCC_CR v1;
                    EvWrite RCC_CR (Z.lor (Z.lor cr0 RCC_CR_HSEON) RCC_CR_PLLON)]
                ++ B) as (B & HB & ->).
  { destruct Hshape as [[_ ->] | (v2 & p3 & Hv2 & Hp3 & Hshape)];
      [exists p2; split; [count_writes | done]|].
    destruct Hshape as [[_ ->] | (v3 & Hv3 & _ & ->)];
      eexists; (split; [|by rewrite <- !(assoc_L (++))]); count_writes. }
  apply second_write_gated in Hpre as [-> ->]; [|count_writes ..|done].
  split.
  - rewrite land_lor_same. discriminate.
  - eexists _, v1. split; [done|]. by apply hse_busy_false.
Qed.

(** The write that switches the system clock to the PLL comes right after a
    read that shows the PLL ready. *)
Lemma clk_init_trace_switch_gate pll_src pll_mul res t q v :
  clk_init_trace pll_src pll_mul res t ->
  q ++ [EvWrite RCC_CFGR v] `prefix_of` t -> writes_to RCC_CFGR q <> [] ->
  Z.land v RCC_CFGR_SW = RCC_CFGR_SW_PLL /\
  exists q' x, q = q' ++ [EvRead RCC_CR x] /\ Z.land x RCC_CR_PLLRDY <> 0.
Proof.
  intros (cr0 & p1 & Hp1 & Hshape) Hpre Hq. cbn zeta in Hshape.
  destruct Hshape as [[_ ->] | (v1 & p2 & Hv1 & Hp2 & Hshape)].
  { apply second_write_absent in Hpre; [done | count_writes]. }
  destruct Hshape as [[_ ->] | (v2 & p3 & Hv2 & Hp3 & Hshape)].
  { apply second_write_absent in Hpre; [done | count_writes]. }
  assert (exists B, writes_to RCC_CFGR B = [] /\
            t = (([EvRead RCC_CR cr0; EvWrite RCC_CFGR (Z.lor pll_src pll_mul);
                   EvWrite RCC_CR (Z.lor cr0 RCC_CR_HSEON)] ++ p1)
                 ++ [EvRead RCC_CR v1;
                     EvWrite RCC_CR (Z.lor (Z.lor cr0 RCC_CR_HSEON) RCC_CR_PLLON)]
                 ++ p2)
                ++ [EvRead RCC_CR v2;
                    EvWrite RCC_CFGR
                      (Z.lor (Z.land (Z.lor pll_src pll_mul) (not32 RCC_CFGR_SW))
                             RCC_CFGR_SW_PLL)]
                ++ B) as (B & HB & ->).
  { destruct Hshape as [[_ ->] | (v3 & Hv3 & _ & ->)];
      eexists; (split; [|by rewrite <- ?(assoc_L (++))]); count_writes. }
  apply second_write_gated in Hpre as [-> ->]; [|count_writes ..|done].
  split.
  - apply switch_field_set.
  - eexists _, v2. split; [done|]. by apply pll_busy_false.
Qed.

(** A run that returns has gone through all three loops. *)
Lemma clk_init_trace_result pll_src pll_mul res t :
  clk_init_trace pll_src pll_mul res t ->
  res = Spinning \/
  (res = Returned tt /\
   exists cr0 p1 v1 p2 v2 p3 v3,
     busy_reads RCC_CR hse_busy p1 /\ hse_busy v1 = false /\
     busy_reads RCC_CR pll_busy p2 /\ pll_busy v2 = false /\
     busy_reads RCC_CFGR sw_busy p3 /\ sw_busy v3 = false /\
     t = ((([EvRead RCC_CR cr0; EvWrite RCC_CFGR (Z.lor pll_src pll_mul);
             EvWrite RCC_CR (Z.lor cr0 RCC_CR_HSEON)] ++ p1)
           ++ [EvRead RCC_CR v1;
               EvWrite RCC_CR (Z.lor (Z.lor cr0 RCC_CR_HSEON) RCC_CR_PLLON)]
           ++ p2)
          ++ [EvRead RCC_CR v2;
              EvWrite RCC_CFGR
                (Z.lor (Z.land (Z.lor pll_src pll_mul) (not32 RCC_CFGR_SW))
                       RCC_CFGR_SW_PLL)]
          ++ p3)
         ++ [EvRead RCC_CFGR v3]).
Proof.
  intros (cr0 & p1 & Hp1 & Hshape). cbn zeta in Hshape.
  destruct Hshape as [[-> _] | (v1 & p2 & Hv1 & Hp2 & Hshape)]; [by left|].
  destruct Hshape as [[-> _] | (v2 & p3 & Hv2 & Hp3 & Hshape)]; [by left|].
  destruct Hshape as [[-> _] | (v3 & Hv3 & -> & ->)]; [by left|].
  right. split; [done|]. by exists cr0, p1, v1, p2, v2, p3, v3.
Qed.

(** ** Clock initialisation: ordering *)



(** ** Clock initialisation: the configuration register *)

Lemma prescaler_fields_off_switch m :
  m ∈ prescaler_fields ->
  Z.land RCC_CFGR_SW_PLL m = 0 /\ 0 <= m < 2 ^ 32 /\
  Z.land (not32 RCC_CFGR_SW) m = m.
Proof.
  unfold prescaler_fields. intros Hin.
  repeat (apply elem_of_cons in Hin as [-> | Hin]); [by compute ..|].
  by apply elem_of_nil in Hin.
Qed.

(** C9.  When [rcc_clk_init], called with the PLL and the HSE as sources,
    returns, the value it last wrote to the configuration register is
    [pll_src | pll_mul] with the [SW] field set to the PLL.  That value is
    built from the arguments alone: nothing read from the register enters
    it, so from bit 2 upwards it has the bits of [pll_src | pll_mul] and no
    others, and each of the five prescaler fields in which
    [pll_src | pll_mul] has no bit is written as zero, whatever it held
    before the call. *)
Theorem rcc_clk_init_overwrites_cfgr {H : Type} `{Bus H} hdr fuel pll_mul (h : H) :
  let pll_src := RCC_PLLSRC_HSE hdr in
  let r := rcc_clk_init hdr fuel (RCC_CLKSRC_PLL hdr) pll_src pll_mul h in
  let cfgr := Z.lor (Z.land (Z.lor pll_src pll_mul) (not32 RCC_CFGR_SW))
                    RCC_CFGR_SW_PLL in
  result r = Returned tt ->
  writes_to RCC_CFGR (trace r) = [Z.lor pll_src pll_mul; cfgr] /\
  last (writes_to RCC_CFGR (trace r)) = Some cfgr /\
  Z.land cfgr RCC_CFGR_SW = RCC_CFGR_SW_PLL /\
  (forall i, 2 <= i < 32 ->
     Z.testbit cfgr i = Z.testbit (Z.lor pll_src pll_mul) i) /\
  (forall m, m ∈ prescaler_fields ->
     Z.land (Z.lor pll_src pll_mul) m = 0 -> Z.land cfgr m = 0).
Proof.
  cbn zeta. intros Hret.
  pose proof (rcc_clk_init_shape hdr fuel pll_mul h) as Hshape.
  cbn zeta in Hshape. apply clk_init_trace_result in Hshape.
  rewrite Hret in Hshape.
  destruct Hshape as [[=] | (_ & cr0 & p1 & v1 & p2 & v2 & p3 & v3 & Hp1 & _ &
                             Hp2 & _ & Hp3 & _ & ->)].
  assert (writes_to RCC_CFGR
            (((([EvRead RCC_CR cr0;
                 EvWrite RCC_CFGR (Z.lor (RCC_PLLSRC_HSE hdr) pll_mul);
                 EvWrite RCC_CR (Z.lor cr0 RCC_CR_HSEON)] ++ p1)
               ++ [EvRead RCC_CR v1;
                   EvWrite RCC_CR (Z.lor (Z.lor cr0 RCC_CR_HSEON) RCC_CR_PLLON)]
               ++ p2)
              ++ [EvRead RCC_CR v2;
                  EvWrite RCC_CFGR
                    (Z.lor (Z.land (Z.lor (RCC_PLLSRC_HSE hdr) pll_mul)
                                   (not32 RCC_CFGR_SW)) RCC_CFGR_SW_PLL)]
              ++ p3)
             ++ [EvRead RCC_CFGR v3])
          = [Z.lor (RCC_PLLSRC_HSE hdr) pll_mul;
             Z.lor (Z.land (Z.lor (RCC_PLLSRC_HSE hdr) pll_mul)
                           (not32 RCC_CFGR_SW)) RCC_CFGR_SW_PLL]) as ->
    by count_writes.
  split; [done|]. split; [done|]. split; [apply switch_field_set|]. split.
  - intros i Hi.
    rewrite Z.lor_spec, Z.land_spec, not32_testbit by lia.
    rewrite bool_decide_true by lia.
    assert (Z.testbit RCC_CFGR_SW i = false) as ->.
    { apply (Z.bits_above_log2 3 i); [done | cbn; lia]. }
    assert (Z.testbit RCC_CFGR_SW_PLL i = false) as ->.
    { apply (Z.bits_above_log2 2 i); [done | cbn; lia]. }
    cbn. by rewrite andb_true_r, orb_false_r.
  - intros m Hm Hfree.
    destruct (prescaler_fields_off_switch m Hm) as (Hsw & _ & Hkeep).
    rewrite Z.land_lor_distr_l, Hsw, Z.lor_0_r.
    by rewrite <- Z.land_assoc, Hkeep.
Qed.

Lemma rcc_clk_init_overwrites_cfgr_witness :
  let prescaled := hw (rcc_set_prescaler sample_h 1 (Z.shiftl 0x4 8) board) in
  let r := rcc_clk_init sample_h 5 0x2 (Z.shiftl 0x1 16) (Z.shiftl 0x7 18) prescaled in
  sim_regs prescaled RCC_CFGR = Z.shiftl 0x4 8 /\
  result r = Returned tt /\
  last (writes_to RCC_CFGR (trace r)) = Some 0x1D0002 /\
  sim_regs (hw r) RCC_CFGR = 0x1D0002 /\
  (forall m, m ∈ prescaler_fields -> Z.land 0x1D0002 m = 0).
Proof.
  cbn zeta. split; [reflexivity|].
  assert (result (rcc_clk_init sample_h 5 0x2 (Z.shiftl 0x1 16) (Z.shiftl 0x7 18)
                    (hw (rcc_set_prescaler sample_h 1 (Z.shiftl 0x4 8) board)))
          = Returned tt) as Hret by reflexivity.
  split; [exact Hret|].
  destruct (rcc_clk_init_overwrites_cfgr sample_h 5 (Z.shiftl 0x7 18) _ Hret)
    as (_ & Hlast & _ & _ & Hzero).
  split; [exact Hlast|]. split; [reflexivity|].
  intros m Hm. apply (Hzero m Hm).
  unfold prescaler_fields in Hm.
  repeat (apply elem_of_cons in Hm as [-> | Hm]); [reflexivity ..|].
  by apply elem_of_nil in Hm.
Defined.

(** ** The simulated board *)

(** Without a working crystal the control register never shows the
    oscillator ready, so the first loop spins for any amount of fuel. *)
Lemma dead_crystal_poll fuel (s : sim) :
  sim_hse_ok s = false ->
  result (while_ fuel (v ← __read RCC_CR; mret (hse_busy v)) (mret tt) s)
  = Spinning.
Proof.
  revert s. induction fuel as [|fuel IH]; intros s Hdead; [done|].
  cbn [while_].
  assert (hse_busy (sim_status s RCC_CR) = true) as Hbusy.
  { unfold sim_status, hse_busy. rewrite Z.eqb_refl, Hdead, andb_false_r.
    cbn [andb with_bits]. rewrite <- Z.land_assoc.
    change (Z.land (not32 RCC_CR_HSERDY) RCC_CR_HSERDY) with 0.
    by rewrite Z.land_0_r. }
  rewrite (bind_returned _ _ s true
             (Sim (sim_regs s) (Nat.pred (sim_settle s)) (sim_hse_ok s))
             [EvRead RCC_CR (sim_status s RCC_CR)]).
  2:{ unfold mbind, prog_bind, __read. cbn. by rewrite Hbusy. }
  cbn [result]. rewrite (bind_silent _ _ _ tt) by done. by apply IH.
Qed.

(** X20.  There is no timeout.  On the simulated board without a working
    crystal, from any register contents and for every amount of fuel,
    [rcc_clk_init] is still spinning: it never returns. *)
Lemma dead_crystal_never_returns hdr fuel pll_mul (s : sim) :
  sim_hse_ok s = false ->
  result (rcc_clk_init hdr fuel (RCC_CLKSRC_PLL hdr) (RCC_PLLSRC_HSE hdr)
                       pll_mul s) = Spinning.
Proof.
  intros Hdead. unfold rcc_clk_init.
  rewrite (bind_silent _ _ s tt) by (unfold ASSERT; by rewrite !Z.eqb_refl).
  unfold RCC_READ_CR, RCC_WRITE_CR, RCC_WRITE_CFGR.
  destruct (read_returns RCC_CR s) as (cr0 & s0 & Hread).
  assert (sim_hse_ok s0 = false) as Hdead0.
  { unfold __read in Hread. cbn in Hread. by injection Hread as _ <-. }
  rewrite (bind_returned _ _ _ _ _ _ Hread), !write_then. cbn [result].
  rewrite bind_stuck; [done|]. by apply dead_crystal_poll.
Qed.

(** With a working crystal the status bits follow after two reads, so three
    rounds of each loop are enough, and more fuel changes nothing. *)
Lemma board_clock_starts extra :
  let r := rcc_clk_init sample_h (3 + extra) 0x2 (Z.shiftl 0x1 16)
                        (Z.shiftl 0x7 18) board in
  result r = Returned tt /\ length (trace r) = 14%nat.
Proof. cbn zeta. split; vm_compute; reflexivity. Qed.

(** * Further properties of the driver *)

(** ** Register accesses on any bus *)

Section Accesses.
Context {H : Type} `{Bus H}.

(** X1.  For every index inside the device table, named or not, and on any
    bus, [rcc_clk_enable] accesses no register but the APB1 and APB2 enable
    registers: never [RCC_AHBENR], a reset register, [RCC_CR] or
    [RCC_CFGR]. *)
Theorem rcc_clk_enable_touches_enable_registers_only hdr id info (h : H) :
  array_get (rcc_dev_table hdr) id = Some info ->
  trace (rcc_clk_enable hdr id h) <> [] /\
  Forall (fun e => ev_addr e = RCC_APB1ENR \/ ev_addr e = RCC_APB2ENR)
         (trace (rcc_clk_enable hdr id h)).
Proof.
  intros Hinfo.
  pose proof Hinfo as [_ Hdom%rcc_dev_table_entry_domain]%array_get_Some.
  destruct (enable_regs_defined _ Hdom) as (reg & Hreg & Hwhich).
  rewrite (rcc_clk_enable_entry hdr id info reg h Hinfo Hreg), set_bits_run.
  cbn [trace]. split; [done|]. repeat (constructor; [exact Hwhich|]). constructor.
Qed.

(** X2.  For every index inside the device table and on any bus,
    [rcc_reset_dev] accesses no register but the APB1 and APB2 reset
    registers; it leaves the enable registers, and so the clock gating,
    alone. *)
Theorem rcc_reset_dev_touches_reset_registers_only hdr id info (h : H) :
  array_get (rcc_dev_table hdr) id = Some info ->
  trace (rcc_reset_dev hdr id h) <> [] /\
  Forall (fun e => ev_addr e = RCC_APB1RSTR \/ ev_addr e = RCC_APB2RSTR)
         (trace (rcc_reset_dev hdr id h)).
Proof.
  intros Hinfo.
  pose proof Hinfo as [_ Hdom%rcc_dev_table_entry_domain]%array_get_Some.
  destruct (reset_regs_defined _ Hdom) as (reg & Hreg & Hwhich).
  rewrite (rcc_reset_dev_entry hdr id info reg h Hinfo Hreg).
  unfold mbind, prog_bind. rewrite set_bits_run. cbn [result hw trace].
  rewrite clear_bits_run. cbn [trace app]. split; [done|].
  repeat (constructor; [exact Hwhich|]). constructor.
Qed.
End Accesses.

Lemma rcc_clk_enable_touches_enable_registers_only_witness :
  trace (rcc_clk_enable sample_h 5 board) <> [] /\
  Forall (fun e => ev_addr e = RCC_APB1ENR \/ ev_addr e = RCC_APB2ENR)
         (trace (rcc_clk_enable sample_h 5 board)).
Proof.
  exact (rcc_clk_enable_touches_enable_registers_only sample_h 5
           {| clk_domain := APB2; line_num := 9 |} board eq_refl).
Defined.

Lemma rcc_reset_dev_touches_reset_registers_only_witness :
  trace (rcc_reset_dev sample_h 5 board) <> [] /\
  Forall (fun e => ev_addr e = RCC_APB1RSTR \/ ev_addr e = RCC_APB2RSTR)
         (trace (rcc_reset_dev sample_h 5 board)).
Proof.
  exact (rcc_reset_dev_touches_reset_registers_only sample_h 5
           {| clk_domain := APB2; line_num := 9 |} board eq_refl).
Defined.

(** ** Enabling and resetting on the register file *)

Lemma testbit_BIT_own v n :
  0 <= n < 32 -> Z.testbit (Z.lor v (u32 (BIT n))) n = true.
Proof.
  intros Hn. rewrite Z.lor_spec, BIT_testbit by lia.
  rewrite bool_decide_true by done. apply orb_true_r.
Qed.

(** X3.  [rcc_clk_enable] never turns anything off: for every index inside
    the device table, every bit that is set in any register before the call
    is set after it. *)
Theorem rcc_clk_enable_never_clears hdr id info (regs : regfile) a i :
  array_get (rcc_dev_table hdr) id = Some info ->
  Z.testbit (regs a) i = true ->
  Z.testbit (hw (rcc_clk_enable hdr id regs) a) i = true.
Proof.
  intros Hinfo Hset.
  pose proof Hinfo as [_ Hdom%rcc_dev_table_entry_domain]%array_get_Some.
  destruct (enable_regs_defined _ Hdom) as (reg & Hreg & _).
  rewrite (rcc_clk_enable_entry hdr id info reg regs Hinfo Hreg).
  rewrite set_bits_regfile. cbn [hw]. unfold regfile_set.
  destruct (Z.eqb_spec a reg) as [-> | _]; [|done].
  by rewrite Z.lor_spec, Hset.
Qed.

Lemma rcc_clk_enable_never_clears_witness :
  let regs : regfile := fun _ => 0x5 in
  hw (rcc_clk_enable sample_h 0 regs) RCC_APB2ENR = 0x5 /\
  Z.testbit (hw (rcc_clk_enable sample_h 0 regs) RCC_APB2ENR) 0 = true /\
  Z.testbit (hw (rcc_clk_enable sample_h 0 regs) RCC_APB1ENR) 2 = true.
Proof.
  split; [reflexivity|]. split.
  - apply (rcc_clk_enable_never_clears sample_h 0
             {| clk_domain := APB2; line_num := 2 |} (fun _ => 0x5) RCC_APB2ENR 0);
      reflexivity.
  - apply (rcc_clk_enable_never_clears sample_h 0
             {| clk_domain := APB2; line_num := 2 |} (fun _ => 0x5) RCC_APB1ENR 2);
      reflexivity.
Defined.

(** X4.  Enabling two devices of the table gives the same registers in
    either order, and afterwards the lines of both are set. *)
Theorem rcc_clk_enable_commutes hdr d1 info1 d2 info2 (regs : regfile) :
  rcc_h_ok hdr ->
  (d1, info1) ∈ rcc_dev_inits -> (d2, info2) ∈ rcc_dev_inits ->
  let id1 := Z.of_nat (dev_num hdr d1) in
  let id2 := Z.of_nat (dev_num hdr d2) in
  let s12 := hw (rcc_clk_enable hdr id2 (hw (rcc_clk_enable hdr id1 regs))) in
  let s21 := hw (rcc_clk_enable hdr id1 (hw (rcc_clk_enable hdr id2 regs))) in
  (forall a, s12 a = s21 a) /\
  exists reg1 reg2,
    array_get enable_regs (clk_domain info1) = Some reg1 /\
    array_get enable_regs (clk_domain info2) = Some reg2 /\
    Z.testbit (s12 reg1) (line_num info1) = true /\
    Z.testbit (s12 reg2) (line_num info2) = true.
Proof.
  intros Hok Hin1 Hin2. cbn zeta.
  destruct (rcc_dev_inits_shape _ _ Hin1) as [Hdom1 Hline1].
  destruct (rcc_dev_inits_shape _ _ Hin2) as [Hdom2 Hline2].
  destruct (enable_regs_defined _ Hdom1) as (reg1 & Hreg1 & _).
  destruct (enable_regs_defined _ Hdom2) as (reg2 & Hreg2 & _).
  rewrite !(fun h => rcc_clk_enable_step hdr d1 info1 reg1 h Hok Hin1 Hreg1).
  rewrite !(fun h => rcc_clk_enable_step hdr d2 info2 reg2 h Hok Hin2 Hreg2).
  rewrite !set_bits_regfile. cbn [hw]. rewrite ?set_bits_regfile. cbn [hw].
  split.
  - intros a. unfold regfile_set.
    repeat match goal with
           | |- context [?x =? ?y] => destruct (Z.eqb_spec x y); subst; try done
           end.
    by rewrite <- !Z.lor_assoc, (Z.lor_comm (u32 (BIT (line_num info1)))).
  - exists reg1, reg2. split; [done|]. split; [done|]. split.
    + unfold regfile_set at 1. destruct (Z.eqb_spec reg1 reg2) as [<- | _].
      * rewrite regfile_set_eq, Z.lor_spec, testbit_BIT_own by done. done.
      * rewrite regfile_set_eq. by apply testbit_BIT_own.
    + rewrite regfile_set_eq. by apply testbit_BIT_own.
Qed.

Lemma rcc_clk_enable_commutes_witness :
  let s12 := hw (rcc_clk_enable sample_h 7 (hw (rcc_clk_enable sample_h 0 zero_regs))) in
  let s21 := hw (rcc_clk_enable sample_h 0 (hw (rcc_clk_enable sample_h 7 zero_regs))) in
  (forall a, s12 a = s21 a) /\
  Z.testbit (s12 RCC_APB2ENR) 2 = true /\ Z.testbit (s12 RCC_APB1ENR) 17 = true.
Proof.
  destruct (rcc_clk_enable_commutes sample_h
              RCC_GPIOA {| clk_domain := APB2; line_num := 2 |}
              RCC_USART2 {| clk_domain := APB1; line_num := 17 |}
              zero_regs sample_h_ok ltac:(repeat constructor)
              ltac:(repeat constructor))
    as (Hsame & reg1 & reg2 & Hreg1 & Hreg2 & Hbit1 & Hbit2).
  injection Hreg1 as <-. injection Hreg2 as <-.
  split; [exact Hsame|]. split; [exact Hbit1 | exact Hbit2].
Defined.

Lemma pulse_bits v mask i :
  0 <= i ->
  Z.testbit (Z.land (Z.lor v (u32 mask)) (not32 mask)) i =
  Z.testbit v i && bool_decide (i < 32) && negb (Z.testbit mask i).
Proof.
  intros Hi. rewrite Z.land_spec, Z.lor_spec, not32_testbit, u32_testbit by done.
  destruct (Z.testbit v i), (bool_decide (i < 32)), (Z.testbit mask i); done.
Qed.

Lemma reset_dev_regfile hdr id info reg (regs : regfile) :
  array_get (rcc_dev_table hdr) id = Some info ->
  array_get reset_regs (clk_domain info) = Some reg ->
  rcc_reset_dev hdr id regs =
  Run (Returned tt)
      (regfile_set reg
         (Z.land (Z.lor (regs reg) (u32 (BIT (line_num info))))
                 (not32 (BIT (line_num info))))
         (regfile_set reg (Z.lor (regs reg) (u32 (BIT (line_num info)))) regs))
      [EvRead reg (regs reg);
       EvWrite reg (Z.lor (regs reg) (u32 (BIT (line_num info))));
       EvRead reg (Z.lor (regs reg) (u32 (BIT (line_num info))));
       EvWrite reg (Z.land (Z.lor (regs reg) (u32 (BIT (line_num info))))
                           (not32 (BIT (line_num info))))].
Proof.
  intros Hinfo Hreg. rewrite (rcc_reset_dev_entry hdr id info reg regs Hinfo Hreg).
  unfold mbind, prog_bind. rewrite set_bits_regfile. cbn [result hw trace].
  rewrite clear_bits_regfile. cbn [result hw trace app].
  by rewrite regfile_set_eq.
Qed.

(** X5.  [rcc_reset_dev] changes nothing in the reset register but the
    device's own bit: after the call every other bit of the 32-bit register
    is as before, so a device that another caller holds in reset through
    the same register stays in reset, and the device's own bit is clear
    whether or not it was set. *)
Theorem rcc_reset_dev_keeps_other_bits hdr d info (regs : regfile) :
  rcc_h_ok hdr -> (d, info) ∈ rcc_dev_inits ->
  exists reg,
    array_get reset_regs (clk_domain info) = Some reg /\
    forall i, 0 <= i < 32 ->
      Z.testbit (hw (rcc_reset_dev hdr (Z.of_nat (dev_num hdr d)) regs) reg) i =
      if bool_decide (i = line_num info) then false else Z.testbit (regs reg) i.
Proof.
  intros Hok Hin.
  destruct (rcc_dev_inits_shape _ _ Hin) as [Hdom Hline].
  destruct (reset_regs_defined _ Hdom) as (reg & Hreg & _).
  exists reg. split; [done|]. intros i Hi.
  rewrite (reset_dev_regfile hdr _ info reg).
  2:{ rewrite array_get_of_nat. by apply rcc_dev_table_lookup. }
  2:{ done. }
  cbn [hw]. rewrite regfile_set_eq, pulse_bits by lia.
  rewrite bool_decide_true by lia. rewrite andb_true_r.
  rewrite <- (u32_small (BIT (line_num info))) by apply u32_range.
  rewrite BIT_testbit by lia.
  case_bool_decide; [apply andb_false_r | apply andb_true_r].
Qed.

Lemma rcc_reset_dev_keeps_other_bits_witness :
  let regs : regfile := fun _ => 0x60003 in
  let r := rcc_reset_dev sample_h 7 regs in
  hw r RCC_APB1RSTR = 0x40003 /\
  forall i, 0 <= i < 32 ->
    Z.testbit (hw r RCC_APB1RSTR) i =
    if bool_decide (i = 17) then false else Z.testbit 0x60003 i.
Proof.
  split; [reflexivity|].
  destruct (rcc_reset_dev_keeps_other_bits sample_h RCC_USART2
              {| clk_domain := APB1; line_num := 17 |} (fun _ => 0x60003)
              sample_h_ok ltac:(repeat constructor)) as (reg & Hreg & Hbits).
  injection Hreg as <-. exact Hbits.
Defined.

(** X6.  [rcc_reset_dev] is idempotent for every index inside the device
    table: a second call returns as the first did and leaves every register
    as the first call left it. *)
Theorem rcc_reset_dev_idempotent hdr id info (regs : regfile) :
  array_get (rcc_dev_table hdr) id = Some info ->
  let once := rcc_reset_dev hdr id regs in
  let twice := rcc_reset_dev hdr id (hw once) in
  result once = Returned tt /\ result twice = Returned tt /\
  forall a, hw twice a = hw once a.
Proof.
  intros Hinfo. cbn zeta.
  pose proof Hinfo as [_ Hdom%rcc_dev_table_entry_domain]%array_get_Some.
  destruct (reset_regs_defined _ Hdom) as (reg & Hreg & _).
  rewrite !(reset_dev_regfile hdr id info reg) by done.
  cbn [result hw]. split; [done|]. split; [done|].
  intros a. rewrite !regfile_set_eq.
  unfold regfile_set. destruct (Z.eqb_spec a reg) as [-> | _]; [|done].
  apply Z.bits_inj'. intros i Hi. rewrite pulse_bits, pulse_bits by done.
  destruct (Z.testbit (regs reg) i), (bool_decide (i < 32)),
    (Z.testbit (BIT (line_num info)) i); done.
Qed.

Lemma rcc_reset_dev_idempotent_witness :
  let regs : regfile := fun _ => 0x60003 in
  let once := rcc_reset_dev sample_h 7 regs in
  let twice := rcc_reset_dev sample_h 7 (hw once) in
  hw once RCC_APB1RSTR = 0x40003 /\
  result once = Returned tt /\ result twice = Returned tt /\
  forall a, hw twice a = hw once a.
Proof.
  split; [reflexivity|].
  exact (rcc_reset_dev_idempotent sample_h 7
           {| clk_domain := APB1; line_num := 17 |} (fun _ => 0x60003) eq_refl).
Defined.

Lemma RSTR_ENR_distinct ereg rreg :
  ereg = RCC_APB1ENR \/ ereg = RCC_APB2ENR ->
  rreg = RCC_APB1RSTR \/ rreg = RCC_APB2RSTR -> ereg <> rreg.
Proof. by intros [-> | ->] [-> | ->]. Qed.

(** X7.  Resetting a device does not gate its clock off: after
    [rcc_clk_enable] followed by [rcc_reset_dev] for the same identifier of
    the table, the device's line is still set in the enable register, the
    enable register holds what [rcc_clk_enable] left there, and the device's
    reset bit is clear. *)
Theorem rcc_reset_dev_keeps_clock_enabled hdr d info (regs : regfile) :
  rcc_h_ok hdr -> (d, info) ∈ rcc_dev_inits ->
  let id := Z.of_nat (dev_num hdr d) in
  let enabled := hw (rcc_clk_enable hdr id regs) in
  let after := hw (rcc_reset_dev hdr id enabled) in
  exists ereg rreg,
    array_get enable_regs (clk_domain info) = Some ereg /\
    array_get reset_regs (clk_domain info) = Some rreg /\
    after ereg = enabled ereg /\
    Z.testbit (after ereg) (line_num info) = true /\
    Z.testbit (after rreg) (line_num info) = false.
Proof.
  intros Hok Hin. cbn zeta.
  destruct (rcc_dev_inits_shape _ _ Hin) as [Hdom Hline].
  destruct (enable_regs_defined _ Hdom) as (ereg & Hereg & Hewhich).
  destruct (reset_regs_defined _ Hdom) as (rreg & Hrreg & Hrwhich).
  pose proof (RSTR_ENR_distinct _ _ Hewhich Hrwhich) as Hne.
  exists ereg, rreg. split; [done|]. split; [done|].
  rewrite (rcc_clk_enable_step hdr d info ereg) by done.
  rewrite set_bits_regfile. cbn [hw].
  rewrite (reset_dev_regfile hdr _ info rreg).
  2:{ rewrite array_get_of_nat. by apply rcc_dev_table_lookup. }
  2:{ done. }
  cbn [hw]. rewrite !(regfile_set_ne rreg) by done.
  rewrite !regfile_set_eq. split; [done|]. split.
  - by apply testbit_BIT_own.
  - rewrite pulse_bits by lia.
    rewrite <- (u32_small (BIT (line_num info))) by apply u32_range.
    rewrite BIT_testbit by lia. rewrite (bool_decide_true (_ = _)) by done.
    apply andb_false_r.
Qed.

Lemma rcc_reset_dev_keeps_clock_enabled_witness :
  let enabled := hw (rcc_clk_enable sample_h 9 zero_regs) in
  let after := hw (rcc_reset_dev sample_h 9 enabled) in
  after RCC_APB2ENR = enabled RCC_APB2ENR /\
  Z.testbit (after RCC_APB2ENR) 11 = true /\
  Z.testbit (after RCC_APB2RSTR) 11 = false.
Proof.
  destruct (rcc_reset_dev_keeps_clock_enabled sample_h RCC_TIMER1
              {| clk_domain := APB2; line_num := 11 |} zero_regs
              sample_h_ok ltac:(repeat constructor))
    as (ereg & rreg & Hereg & Hrreg & Hkept).
  injection Hereg as <-. injection Hrreg as <-. exact Hkept.
Defined.

(** ** The prescaler fields *)

Lemma land_zero_bits a b i :
  Z.land a b = 0 -> Z.testbit a i = true -> Z.testbit b i = false.
Proof.
  intros Hab Ha. pose proof (Z.land_spec a b i) as Hi.
  rewrite Hab, Z.bits_0, Ha in Hi. by destruct (Z.testbit b i).
Qed.

Lemma within_bits d m i :
  Z.land d m = d -> Z.testbit d i = true -> Z.testbit m i = true.
Proof.
  intros Hdm Hd. rewrite <- Hdm, Z.land_spec in Hd.
  by apply andb_true_iff in Hd as [_ ?].
Qed.

Lemma in_range_bits m i :
  0 <= m < 2 ^ 32 -> 0 <= i -> Z.testbit m i = true -> bool_decide (i < 32) = true.
Proof.
  intros Hm Hi Hbit. apply bool_decide_eq_true.
  destruct (Z.lt_ge_cases i 32) as [|Hge]; [done|].
  by rewrite (testbit_above m i Hm Hge) in Hbit.
Qed.

Ltac close_bits :=
  cbn in *;
  repeat match goal with
         | Hx : ?b = ?b -> _ |- _ => specialize (Hx eq_refl)
         end;
  try done; try congruence.

Lemma masks_inits_facts p1 m1 p2 m2 :
  (p1, m1) ∈ masks_inits -> (p2, m2) ∈ masks_inits ->
  0 <= m1 < 2 ^ 32 /\
  (p1 <> p2 -> Z.land m1 m2 = 0) /\
  (forall f, f ∈ clock_select_fields -> Z.land f m1 = 0 /\ 0 <= f < 2 ^ 32).
Proof.
  unfold masks_inits. intros Hin1 Hin2.
  assert (forall f, f ∈ clock_select_fields ->
            (f = RCC_CFGR_SW \/ f = RCC_CFGR_SWS \/ f = RCC_CFGR_PLLSRC)) as Hf.
  { unfold clock_select_fields. intros f Hin.
    repeat (apply elem_of_cons in Hin as [-> | Hin]); auto.
    by apply elem_of_nil in Hin. }
  repeat (apply elem_of_cons in Hin1 as [[= -> ->]|Hin1]);
    try (by apply elem_of_nil in Hin1);
    (split; [by compute|]);
    (split; [|intros f [-> | [-> | ->]]%Hf; by compute]);
    repeat (apply elem_of_cons in Hin2 as [[= -> ->]|Hin2]);
    try (by apply elem_of_nil in Hin2); intros Hne; done.
Qed.

Section PrescalerAccess.
Context {H : Type} `{Bus H}.

Lemma rcc_set_prescaler_entry hdr sel mask divider (h : H) :
  array_get (masks hdr) sel = Some mask ->
  rcc_set_prescaler hdr sel divider h =
  Run (Returned tt)
      (bus_write RCC_CFGR
         (Z.lor (Z.land (bus_read RCC_CFGR h).1 (not32 mask)) divider)
         (bus_read RCC_CFGR h).2)
      [EvRead RCC_CFGR (bus_read RCC_CFGR h).1;
       EvWrite RCC_CFGR
         (Z.lor (Z.land (bus_read RCC_CFGR h).1 (not32 mask)) divider)].
Proof.
  intros Hmask. unfold rcc_set_prescaler, RCC_READ_CFGR, RCC_WRITE_CFGR.
  unfold mbind at 1. unfold prog_bind, __read.
  destruct (bus_read RCC_CFGR h) as [v h']. cbn [result hw trace fst snd].
  by rewrite (bind_silent _ _ h' mask) by (by apply elem_inside).
Qed.

(** X9.  The divider is or-ed in as it is, not confined to the selected
    field.  On any bus and for any element [mask] of the [masks] array, bit
    [i] of the value written to the configuration register is set exactly
    when it is set in the divider, or it lies outside [mask] (and inside the
    32 bits) and was set in the value read: a divider bit outside the field
    lands in a neighbouring field. *)
Theorem rcc_set_prescaler_written_bits hdr sel mask divider (h : H) :
  array_get (masks hdr) sel = Some mask ->
  exists written,
    trace (rcc_set_prescaler hdr sel divider h) =
    [EvRead RCC_CFGR (bus_read RCC_CFGR h).1; EvWrite RCC_CFGR written] /\
    forall i, 0 <= i ->
      Z.testbit written i =
      Z.testbit divider i ||
      (Z.testbit (bus_read RCC_CFGR h).1 i && bool_decide (i < 32)
       && negb (Z.testbit mask i)).
Proof.
  intros Hmask. rewrite (rcc_set_prescaler_entry hdr sel mask divider h Hmask).
  eexists. split; [reflexivity|]. intros i Hi.
  rewrite Z.lor_spec, Z.land_spec, not32_testbit by done.
  destruct (Z.testbit divider i), (Z.testbit (bus_read RCC_CFGR h).1 i),
    (bool_decide (i < 32)), (Z.testbit mask i); done.
Qed.
End PrescalerAccess.

Lemma rcc_set_prescaler_written_bits_witness :
  exists written,
    trace (rcc_set_prescaler sample_h 1 0x2 zero_regs) =
    [EvRead RCC_CFGR 0; EvWrite RCC_CFGR written] /\
    Z.testbit written 1 = true /\ Z.testbit RCC_CFGR_PPRE1 1 = false.
Proof.
  destruct (rcc_set_prescaler_written_bits sample_h 1 RCC_CFGR_PPRE1 0x2
              zero_regs eq_refl) as (written & Htrace & Hbits).
  exists written. split; [exact Htrace|].
  split; [by rewrite Hbits | reflexivity].
Defined.

Lemma set_prescaler_regfile hdr sel mask divider (regs : regfile) :
  array_get (masks hdr) sel = Some mask ->
  rcc_set_prescaler hdr sel divider regs =
  Run (Returned tt)
      (regfile_set RCC_CFGR
         (Z.lor (Z.land (regs RCC_CFGR) (not32 mask)) divider) regs)
      [EvRead RCC_CFGR (regs RCC_CFGR);
       EvWrite RCC_CFGR (Z.lor (Z.land (regs RCC_CFGR) (not32 mask)) divider)].
Proof.
  intros Hmask. by rewrite (rcc_set_prescaler_entry hdr sel mask divider regs Hmask).
Qed.

Lemma masks_selector hdr p mask :
  rcc_h_ok hdr -> (p, mask) ∈ masks_inits ->
  array_get (masks hdr) (Z.of_nat (prescaler_num hdr p)) = Some mask.
Proof. intros Hok Hin. rewrite array_get_of_nat. by apply masks_lookup. Qed.

(** X10.  [rcc_set_prescaler] is idempotent for every selector inside the
    [masks] array and every divider, fitting its field or not: a second call
    with the same arguments returns as the first did and leaves every
    register as the first call left it. *)
Theorem rcc_set_prescaler_idempotent hdr sel mask divider (regs : regfile) :
  array_get (masks hdr) sel = Some mask ->
  let once := rcc_set_prescaler hdr sel divider regs in
  let twice := rcc_set_prescaler hdr sel divider (hw once) in
  result once = Returned tt /\ result twice = Returned tt /\
  forall a, hw twice a = hw once a.
Proof.
  intros Hmask. cbn zeta.
  rewrite !(set_prescaler_regfile hdr sel mask) by done. cbn [result hw].
  split; [done|]. split; [done|]. intros a. rewrite regfile_set_eq.
  unfold regfile_set.
  destruct (Z.eqb_spec a RCC_CFGR) as [_ | _]; [|done].
  apply Z.bits_inj'. intros i Hi.
  rewrite !Z.lor_spec, !Z.land_spec, Z.lor_spec, Z.land_spec.
  destruct (Z.testbit (regs RCC_CFGR) i), (Z.testbit (not32 mask) i),
    (Z.testbit divider i); done.
Qed.

Lemma rcc_set_prescaler_idempotent_witness :
  let regs : regfile := fun _ => 0x1D0002 in
  let once := rcc_set_prescaler sample_h 1 0x403 regs in
  let twice := rcc_set_prescaler sample_h 1 0x403 (hw once) in
  hw once RCC_CFGR = 0x1D0403 /\
  result once = Returned tt /\ result twice = Returned tt /\
  forall a, hw twice a = hw once a.
Proof.
  split; [reflexivity|].
  exact (rcc_set_prescaler_idempotent sample_h 1 RCC_CFGR_PPRE1 0x403
           (fun _ => 0x1D0002) eq_refl).
Defined.

(** X11.  Two prescalers of the table can be set in either order: when each
    divider fits its own field, the registers end up the same both ways, and
    each of the two fields holds its divider. *)
Theorem rcc_set_prescaler_commutes hdr p1 m1 d1 p2 m2 d2 (regs : regfile) :
  rcc_h_ok hdr ->
  (p1, m1) ∈ masks_inits -> (p2, m2) ∈ masks_inits -> p1 <> p2 ->
  Z.land d1 m1 = d1 -> Z.land d2 m2 = d2 ->
  let sel1 := Z.of_nat (prescaler_num hdr p1) in
  let sel2 := Z.of_nat (prescaler_num hdr p2) in
  let s12 := hw (rcc_set_prescaler hdr sel2 d2
                   (hw (rcc_set_prescaler hdr sel1 d1 regs))) in
  let s21 := hw (rcc_set_prescaler hdr sel1 d1
                   (hw (rcc_set_prescaler hdr sel2 d2 regs))) in
  (forall a, s12 a = s21 a) /\
  Z.land (s12 RCC_CFGR) m1 = d1 /\ Z.land (s12 RCC_CFGR) m2 = d2.
Proof.
  intros Hok Hin1 Hin2 Hne Hd1 Hd2. cbn zeta.
  destruct (masks_inits_facts _ _ _ _ Hin1 Hin2) as (Hm1 & Hdisj & _).
  destruct (masks_inits_facts _ _ _ _ Hin2 Hin1) as (Hm2 & _ & _).
  specialize (Hdisj Hne).
  pose proof (fun d r => set_prescaler_regfile hdr _ m1 d r
                (masks_selector hdr p1 m1 Hok Hin1)) as Hrun1.
  pose proof (fun d r => set_prescaler_regfile hdr _ m2 d r
                (masks_selector hdr p2 m2 Hok Hin2)) as Hrun2.
  rewrite !Hrun1, !Hrun2. cbn [hw]. rewrite ?Hrun1, ?Hrun2. cbn [hw].
  rewrite !regfile_set_eq.
  assert (forall i, 0 <= i ->
            (Z.testbit d1 i = true -> Z.testbit m1 i = true) /\
            (Z.testbit d2 i = true -> Z.testbit m2 i = true) /\
            (Z.testbit m1 i = true -> Z.testbit m2 i = false) /\
            (Z.testbit m1 i = true -> bool_decide (i < 32) = true) /\
            (Z.testbit m2 i = true -> bool_decide (i < 32) = true)) as Hbits.
  { intros i Hi. split; [by apply within_bits|]. split; [by apply within_bits|].
    split; [exact (land_zero_bits m1 m2 i Hdisj)|].
    split; [exact (in_range_bits m1 i Hm1 Hi) | exact (in_range_bits m2 i Hm2 Hi)]. }
  split; [|split].
  - intros a. unfold regfile_set.
    destruct (Z.eqb_spec a RCC_CFGR) as [_ | _]; [|done].
    apply Z.bits_inj'. intros i Hi.
    destruct (Hbits i Hi) as (H1 & H2 & H12 & Hr1 & Hr2).
    rewrite !Z.lor_spec, !Z.land_spec, !Z.lor_spec, !Z.land_spec,
      !not32_testbit by done.
    destruct (Z.testbit (regs RCC_CFGR) i), (Z.testbit d1 i), (Z.testbit d2 i),
      (Z.testbit m1 i), (Z.testbit m2 i), (bool_decide (i < 32)); close_bits.
  - apply Z.bits_inj'. intros i Hi.
    destruct (Hbits i Hi) as (H1 & H2 & H12 & Hr1 & Hr2).
    rewrite !Z.land_spec, !Z.lor_spec, !Z.land_spec, !Z.lor_spec, !Z.land_spec,
      !not32_testbit by done.
    destruct (Z.testbit (regs RCC_CFGR) i), (Z.testbit d1 i), (Z.testbit d2 i),
      (Z.testbit m1 i), (Z.testbit m2 i), (bool_decide (i < 32)); close_bits.
  - apply Z.bits_inj'. intros i Hi.
    destruct (Hbits i Hi) as (H1 & H2 & H12 & Hr1 & Hr2).
    rewrite !Z.land_spec, !Z.lor_spec, !Z.land_spec, !Z.lor_spec, !Z.land_spec,
      !not32_testbit by done.
    destruct (Z.testbit (regs RCC_CFGR) i), (Z.testbit d1 i), (Z.testbit d2 i),
      (Z.testbit m1 i), (Z.testbit m2 i), (bool_decide (i < 32)); close_bits.
Qed.

Lemma rcc_set_prescaler_commutes_witness :
  let regs : regfile := fun _ => 0x1D0002 in
  let s12 := hw (rcc_set_prescaler sample_h 4 (Z.shiftl 0x2 14)
                   (hw (rcc_set_prescaler sample_h 1 (Z.shiftl 0x4 8) regs))) in
  let s21 := hw (rcc_set_prescaler sample_h 1 (Z.shiftl 0x4 8)
                   (hw (rcc_set_prescaler sample_h 4 (Z.shiftl 0x2 14) regs))) in
  (forall a, s12 a = s21 a) /\
  Z.land (s12 RCC_CFGR) RCC_CFGR_PPRE1 = Z.shiftl 0x4 8 /\
  Z.land (s12 RCC_CFGR) RCC_CFGR_ADCPRE = Z.shiftl 0x2 14.
Proof.
  apply (rcc_set_prescaler_commutes sample_h
           RCC_PRESCALER_APB1 RCC_CFGR_PPRE1 (Z.shiftl 0x4 8)
           RCC_PRESCALER_ADC RCC_CFGR_ADCPRE (Z.shiftl 0x2 14)
           (fun _ => 0x1D0002) sample_h_ok);
    [repeat constructor | repeat constructor | discriminate
    | reflexivity | reflexivity].
Defined.

(** X12.  Setting a prescaler of the table with a divider that fits its
    field does not switch clocks: the [SW], [SWS] and [PLLSRC] fields of the
    configuration register hold afterwards what they held before. *)
Theorem rcc_set_prescaler_keeps_clock_selection hdr p mask divider
    (regs : regfile) f :
  rcc_h_ok hdr -> (p, mask) ∈ masks_inits -> Z.land divider mask = divider ->
  f ∈ clock_select_fields ->
  let r := rcc_set_prescaler hdr (Z.of_nat (prescaler_num hdr p)) divider regs in
  Z.land (hw r RCC_CFGR) f = Z.land (regs RCC_CFGR) f.
Proof.
  intros Hok Hin Hd Hf. cbn zeta.
  destruct (masks_inits_facts _ _ _ _ Hin Hin) as (_ & _ & Hfields).
  destruct (Hfields f Hf) as [Hoff Hrange].
  rewrite (set_prescaler_regfile hdr _ mask) by (by apply masks_selector).
  cbn [hw]. rewrite regfile_set_eq.
  apply Z.bits_inj'. intros i Hi.
  rewrite !Z.land_spec, Z.lor_spec, Z.land_spec, not32_testbit by done.
  pose proof (within_bits _ _ i Hd) as Hdm.
  pose proof (land_zero_bits _ _ i Hoff) as Hfm.
  pose proof (in_range_bits f i Hrange Hi) as Hfr.
  destruct (Z.testbit (regs RCC_CFGR) i), (Z.testbit divider i),
    (Z.testbit mask i), (Z.testbit f i), (bool_decide (i < 32)); close_bits.
Qed.

Lemma rcc_set_prescaler_keeps_clock_selection_witness :
  let regs : regfile := fun _ => 0x1D000A in
  let r := rcc_set_prescaler sample_h 0 (Z.shiftl 0x8 4) regs in
  hw r RCC_CFGR = 0x1D008A /\
  Z.land (hw r RCC_CFGR) RCC_CFGR_SW = Z.land 0x1D000A RCC_CFGR_SW.
Proof.
  split; [reflexivity|].
  apply (rcc_set_prescaler_keeps_clock_selection sample_h
           RCC_PRESCALER_AHB RCC_CFGR_HPRE (Z.shiftl 0x8 4) (fun _ => 0x1D000A)
           RCC_CFGR_SW sample_h_ok);
    [repeat constructor | reflexivity | repeat constructor].
Defined.

(** ** Clock initialisation: what every run does *)

Lemma busy_reads_addr addr busy p :
  busy_reads addr busy p -> Forall (fun e => ev_addr e = addr) p.
Proof. intros Hp. eapply Forall_impl; [exact Hp|]. by intros e (v & -> & _). Qed.

Lemma clk_init_trace_cr_writes pll_src pll_mul res t :
  clk_init_trace pll_src pll_mul res t ->
  exists cr0,
    head t = Some (EvRead RCC_CR cr0) /\
    (writes_to RCC_CR t = [Z.lor cr0 RCC_CR_HSEON] \/
     writes_to RCC_CR t =
     [Z.lor cr0 RCC_CR_HSEON; Z.lor (Z.lor cr0 RCC_CR_HSEON) RCC_CR_PLLON]).
Proof.
  intros (cr0 & p1 & Hp1 & Hshape). cbn zeta in Hshape. exists cr0.
  destruct Hshape as [[_ ->] | (v1 & p2 & _ & Hp2 & Hshape)].
  { split; [done|]. left. count_writes. }
  destruct Hshape as [[_ ->] | (v2 & p3 & _ & Hp3 & Hshape)].
  { split; [done|]. right. count_writes. }
  destruct Hshape as [[_ ->] | (v3 & _ & _ & ->)];
    (split; [done|]); right; count_writes.
Qed.

Lemma clk_init_trace_addresses pll_src pll_mul res t :
  clk_init_trace pll_src pll_mul res t ->
  Forall (fun e => ev_addr e = RCC_CR \/ ev_addr e = RCC_CFGR) t.
Proof.
  intros (cr0 & p1 & Hp1 & Hshape). cbn zeta in Hshape.
  assert (forall a busy p, (a = RCC_CR \/ a = RCC_CFGR) -> busy_reads a busy p ->
            Forall (fun e => ev_addr e = RCC_CR \/ ev_addr e = RCC_CFGR) p)
    as Hpolls.
  { intros a busy p Ha Hp. apply busy_reads_addr in Hp.
    eapply Forall_impl; [exact Hp|]. by intros e ->. }
  pose proof (Hpolls _ _ _ (or_introl eq_refl) Hp1) as Hall1.
  destruct Hshape as [[_ ->] | (v1 & p2 & _ & Hp2 & Hshape)].
  { repeat (apply Forall_cons; split; [cbn; auto|]). exact Hall1. }
  pose proof (Hpolls _ _ _ (or_introl eq_refl) Hp2) as Hall2.
  destruct Hshape as [[_ ->] | (v2 & p3 & _ & Hp3 & Hshape)].
  { rewrite !Forall_app, !Forall_cons. cbn. auto 20. }
  pose proof (Hpolls _ _ _ (or_intror eq_refl) Hp3) as Hall3.
  destruct Hshape as [[_ ->] | (v3 & _ & _ & ->)];
    rewrite !Forall_app, !Forall_cons; cbn; auto 30.
Qed.

Section EveryRun.
Context {H : Type} `{Bus H}.

Lemma rcc_clk_init_checked hdr fuel sysclk_src pll_src pll_mul (h : H) :
  (sysclk_src = RCC_CLKSRC_PLL hdr /\ pll_src = RCC_PLLSRC_HSE hdr) \/
  rcc_clk_init hdr fuel sysclk_src pll_src pll_mul h = Run Faulted h [].
Proof.
  destruct (Z.eqb_spec sysclk_src (RCC_CLKSRC_PLL hdr)) as [-> | Hs],
    (Z.eqb_spec pll_src (RCC_PLLSRC_HSE hdr)) as [-> | Hp]; [by left | right ..];
    unfold rcc_clk_init, mbind at 1, prog_bind, ASSERT.
  - rewrite Z.eqb_refl. by apply Z.eqb_neq in Hp as ->.
  - by apply Z.eqb_neq in Hs as ->.
  - by apply Z.eqb_neq in Hs as ->.
Qed.

(** X13.  Whatever its arguments, on any bus and however long it runs,
    [rcc_clk_init] accesses no register but [RCC_CR] and [RCC_CFGR]: it
    never touches an enable or a reset register. *)
Theorem rcc_clk_init_touches_clock_registers_only hdr fuel
    sysclk_src pll_src pll_mul (h : H) :
  Forall (fun e => ev_addr e = RCC_CR \/ ev_addr e = RCC_CFGR)
         (trace (rcc_clk_init hdr fuel sysclk_src pll_src pll_mul h)).
Proof.
  destruct (rcc_clk_init_checked hdr fuel sysclk_src pll_src pll_mul h)
    as [[-> ->] | ->]; [|constructor].
  apply (clk_init_trace_addresses _ _ _ _ (rcc_clk_init_shape hdr fuel pll_mul h)).
Qed.

(** X14.  Once the assertion has passed, every run of [rcc_clk_init], even
    one with no fuel at all, begins with the same three accesses: a read of
    the control register, a write of [pll_src | pll_mul] to the
    configuration register, and a write of the control register with
    [RCC_CR_HSEON] or-ed into the value read.  So a call that hangs in a
    loop has already replaced the configuration register. *)
Theorem rcc_clk_init_prologue hdr fuel pll_mul (h : H) :
  let pll_src := RCC_PLLSRC_HSE hdr in
  let cr0 := (bus_read RCC_CR h).1 in
  exists rest,
    trace (rcc_clk_init hdr fuel (RCC_CLKSRC_PLL hdr) pll_src pll_mul h) =
    [EvRead RCC_CR cr0; EvWrite RCC_CFGR (Z.lor pll_src pll_mul);
     EvWrite RCC_CR (Z.lor cr0 RCC_CR_HSEON)] ++ rest /\
    writes_to RCC_CFGR rest `prefix_of`
      [Z.lor (Z.land (Z.lor pll_src pll_mul) (not32 RCC_CFGR_SW)) RCC_CFGR_SW_PLL].
Proof.
  cbn zeta.
  pose proof (rcc_clk_init_shape hdr fuel pll_mul h) as Hshape. cbn zeta in Hshape.
  assert (head (trace (rcc_clk_init hdr fuel (RCC_CLKSRC_PLL hdr)
                         (RCC_PLLSRC_HSE hdr) pll_mul h))
          = Some (EvRead RCC_CR (bus_read RCC_CR h).1)) as Hhead.
  { unfold rcc_clk_init.
    rewrite (bind_silent _ _ h tt) by (unfold ASSERT; by rewrite !Z.eqb_refl).
    assert (__read RCC_CR h =
            Run (Returned (bus_read RCC_CR h).1) (bus_read RCC_CR h).2
                [EvRead RCC_CR (bus_read RCC_CR h).1]) as Hread.
    { unfold __read. by destruct (bus_read RCC_CR h). }
    unfold RCC_READ_CR at 1. by rewrite (bind_returned _ _ _ _ _ _ Hread). }
  destruct Hshape as (cr0 & p1 & Hp1 & Hshape).
  assert (cr0 = (bus_read RCC_CR h).1) as <-.
  { destruct Hshape as [[_ Ht] | (v1 & p2 & _ & _ & [[_ Ht] | (v2 & p3 & _ & _ &
      [[_ Ht] | (v3 & _ & _ & Ht)])])]; rewrite Ht in Hhead; by injection Hhead. }
  destruct Hshape as [[_ ->] | (v1 & p2 & _ & Hp2 & Hshape)].
  { eexists. split; [reflexivity|]. count_writes. apply prefix_nil. }
  destruct Hshape as [[_ ->] | (v2 & p3 & _ & Hp3 & Hshape)].
  { eexists. split; [by rewrite <- !(assoc_L (++))|]. count_writes.
    apply prefix_nil. }
  destruct Hshape as [[_ ->] | (v3 & _ & _ & ->)];
    (eexists; split; [by rewrite <- !(assoc_L (++))|]); count_writes.
Qed.

(** X15.  [rcc_clk_init] only ever adds [RCC_CR_HSEON] and [RCC_CR_PLLON] to
    the control register: every value it writes there has bit 16 set, has
    every bit set that was set in the value first read, and outside bits 16
    and 24 equals that value. *)
Theorem rcc_clk_init_keeps_control_bits hdr fuel pll_mul (h : H) :
  let r := rcc_clk_init hdr fuel (RCC_CLKSRC_PLL hdr) (RCC_PLLSRC_HSE hdr)
                        pll_mul h in
  exists cr0,
    head (trace r) = Some (EvRead RCC_CR cr0) /\
    forall w, w ∈ writes_to RCC_CR (trace r) ->
      Z.testbit w 16 = true /\
      (forall i, Z.testbit cr0 i = true -> Z.testbit w i = true) /\
      (forall i, 0 <= i -> i <> 16 -> i <> 24 -> Z.testbit w i = Z.testbit cr0 i).
Proof.
  cbn zeta.
  destruct (clk_init_trace_cr_writes _ _ _ _ (rcc_clk_init_shape hdr fuel pll_mul h))
    as (cr0 & Hhead & Hwrites).
  exists cr0. split; [exact Hhead|]. intros w Hw.
  change RCC_CR_HSEON with (2 ^ 16) in Hwrites.
  change RCC_CR_PLLON with (2 ^ 24) in Hwrites.
  assert (w = Z.lor cr0 (2 ^ 16) \/ w = Z.lor (Z.lor cr0 (2 ^ 16)) (2 ^ 24)) as Hval.
  { destruct Hwrites as [Heq | Heq]; rewrite Heq in Hw;
      repeat (apply elem_of_cons in Hw as [-> | Hw]); auto;
      by apply elem_of_nil in Hw. }
  assert (forall i, 0 <= i -> Z.testbit w i =
            Z.testbit cr0 i || (16 =? i) ||
            (if decide (w = Z.lor cr0 (2 ^ 16)) then false else (24 =? i)))
    as Hbits.
  { intros i Hi. destruct Hval as [-> | ->].
    - rewrite decide_True by done.
      rewrite Z.lor_spec, Z.pow2_bits_eqb by lia. by rewrite orb_false_r.
    - destruct (decide _) as [Heq | _].
      + rewrite Heq, Z.lor_spec, Z.pow2_bits_eqb by lia. by rewrite orb_false_r.
      + by rewrite !Z.lor_spec, !Z.pow2_bits_eqb by lia. }
  split; [by rewrite Hbits, Z.eqb_refl, orb_true_r by lia|]. split.
  - intros i Hset. assert (0 <= i) as Hi.
    { destruct (Z.lt_ge_cases i 0); [|done]. by rewrite Z.testbit_neg_r in Hset. }
    by rewrite Hbits, Hset by done.
  - intros i Hi H16 H24. rewrite Hbits by done.
    assert ((16 =? i) = false) as -> by (apply Z.eqb_neq; lia).
    assert ((24 =? i) = false) as -> by (apply Z.eqb_neq; lia).
    destruct (decide _); by rewrite !orb_false_r.
Qed.
End EveryRun.

Lemma rcc_clk_init_keeps_control_bits_witness :
  let r := rcc_clk_init sample_h 5 0x2 (Z.shiftl 0x1 16) (Z.shiftl 0x7 18)
                        (Sim (fun _ => 0x83) 0 true) in
  head (trace r) = Some (EvRead RCC_CR 0x83) /\
  forall w, w ∈ writes_to RCC_CR (trace r) ->
    Z.testbit w 16 = true /\ Z.testbit w 0 = true /\ Z.testbit w 7 = true.
Proof.
  cbn zeta.
  destruct (rcc_clk_init_keeps_control_bits sample_h 5 (Z.shiftl 0x7 18)
              (Sim (fun _ => 0x83) 0 true)) as (cr0 & Hhead & Hall).
  assert (cr0 = 0x83) as -> by (vm_compute in Hhead; by injection Hhead).
  split; [exact Hhead|]. intros w Hw.
  destruct (Hall w Hw) as (H16 & Hkeep & _).
  split; [exact H16|]. split; apply Hkeep; reflexivity.
Defined.

Lemma read_regfile addr (regs : regfile) :
  __read addr regs = Run (Returned (regs addr)) regs [EvRead addr (regs addr)].
Proof. reflexivity. Qed.

(** On the register file a busy poll reads the same value for ever. *)
Lemma regfile_poll_busy fuel addr busy (regs : regfile) :
  busy (regs addr) = true ->
  while_ fuel (v ← __read addr; mret (busy v)) (mret tt) regs =
  Run Spinning regs (replicate fuel (EvRead addr (regs addr))).
Proof.
  intros Hbusy. induction fuel as [|fuel IH]; [done|].
  cbn [while_].
  rewrite (bind_returned _ _ regs true regs [EvRead addr (regs addr)]).
  2:{ unfold mbind, prog_bind, __read. cbn. by rewrite Hbusy. }
  rewrite (bind_silent _ _ regs tt) by done. by rewrite IH.
Qed.

(** X16.  On a plain register file, where nothing but the driver changes a
    register, a control register without [RCC_CR_HSERDY] keeps
    [rcc_clk_init] in its first loop for ever: for every amount of fuel the
    run is still spinning, has made its three opening accesses and one poll
    per unit of fuel, and has left [pll_src | pll_mul] in the configuration
    register, [RCC_CR_HSEON] or-ed into the control register and every
    other register as it was. *)
Theorem rcc_clk_init_spins_on_plain_registers hdr fuel pll_mul (regs : regfile) :
  Z.land (regs RCC_CR) RCC_CR_HSERDY = 0 ->
  let pll_src := RCC_PLLSRC_HSE hdr in
  let r := rcc_clk_init hdr fuel (RCC_CLKSRC_PLL hdr) pll_src pll_mul regs in
  result r = Spinning /\
  length (trace r) = (3 + fuel)%nat /\
  hw r RCC_CFGR = Z.lor pll_src pll_mul /\
  hw r RCC_CR = Z.lor (regs RCC_CR) RCC_CR_HSEON /\
  (forall a, a <> RCC_CR -> a <> RCC_CFGR -> hw r a = regs a).
Proof.
  intros Hoff. cbn zeta. unfold rcc_clk_init.
  rewrite (bind_silent _ _ regs tt) by (unfold ASSERT; by rewrite !Z.eqb_refl).
  unfold RCC_READ_CR, RCC_WRITE_CR, RCC_WRITE_CFGR.
  rewrite (bind_returned _ _ _ _ _ _ (read_regfile RCC_CR regs)).
  rewrite !write_then. cbn [result hw trace].
  set (regs2 := bus_write RCC_CR _ _).
  assert (hse_busy (regs2 RCC_CR) = true) as Hbusy.
  { unfold regs2. cbn [bus_write regfile_bus]. rewrite regfile_set_eq.
    unfold hse_busy. rewrite Z.land_lor_distr_l, Hoff. by compute. }
  pose proof (regfile_poll_busy fuel RCC_CR hse_busy regs2 Hbusy) as Hpoll.
  unfold hse_busy in Hpoll at 1.
  rewrite bind_stuck by (by rewrite Hpoll). rewrite Hpoll.
  cbn [result hw trace app length]. rewrite length_replicate.
  split; [done|]. split; [done|]. unfold regs2. cbn [bus_write regfile_bus].
  split; [by rewrite regfile_set_ne, regfile_set_eq|].
  split; [by rewrite regfile_set_eq|].
  intros a Hcr Hcfgr. by rewrite !regfile_set_ne.
Qed.

Lemma rcc_clk_init_spins_on_plain_registers_witness :
  let r := rcc_clk_init sample_h 100 0x2 (Z.shiftl 0x1 16) (Z.shiftl 0x7 18)
                        zero_regs in
  result r = Spinning /\ length (trace r) = 103%nat /\
  hw r RCC_CFGR = 0x1D0000 /\ hw r RCC_CR = 0x10000.
Proof.
  destruct (rcc_clk_init_spins_on_plain_registers sample_h 100 (Z.shiftl 0x7 18)
              zero_regs eq_refl) as (Hres & Hlen & Hcfgr & Hcr & _).
  repeat split; assumption.
Defined.

(** ** The device table under any numbering *)

Section DesignateMore.
Context {A : Type} (zero : A).
Implicit Types (inits : list (nat * A)) (i : nat) (x : A).

(** Every designator is inside the array. *)
Lemma designate_inside inits i x :
  (i, x) ∈ inits -> (i < length (designate zero inits))%nat.
Proof.
  induction inits as [|[j y] inits IH] using rev_ind; intros Hin.
  - by apply elem_of_nil in Hin.
  - rewrite designate_snoc, length_insert, length_resize.
    apply elem_of_app in Hin as [Hin | Hin].
    + specialize (IH Hin). lia.
    + apply list_elem_of_singleton in Hin as [= -> ->]. lia.
Qed.

(** An element no initializer designates is zero. *)
Lemma designate_gap inits i :
  i ∉ inits.*1 -> (i < length (designate zero inits))%nat ->
  designate zero inits !! i = Some zero.
Proof.
  induction inits as [|[j y] inits IH] using rev_ind; intros Hfresh Hlen.
  - cbn in Hlen. lia.
  - rewrite fmap_app in Hfresh. apply not_elem_of_app in Hfresh as [Hfresh Hj].
    cbn in Hj. apply not_elem_of_cons in Hj as [Hj _].
    rewrite designate_snoc in Hlen |- *.
    rewrite length_insert, length_resize in Hlen.
    rewrite list_lookup_insert_ne by done.
    destruct (decide (i < length (designate zero inits))%nat) as [Hold | Hnew].
    + rewrite lookup_resize by lia. by apply IH.
    + apply lookup_resize_new; lia.
Qed.
End DesignateMore.

Lemma rcc_dev_inits_named d : exists info, (d, info) ∈ rcc_dev_inits.
Proof. destruct d; eexists; repeat constructor. Qed.

Lemma rcc_dev_table_named_inside hdr d :
  (dev_num hdr d < length (rcc_dev_table hdr))%nat.
Proof.
  destruct (rcc_dev_inits_named d) as (info & Hin).
  apply (designate_inside _ _ _ info), list_elem_of_fmap. by exists (d, info).
Qed.

(** X17.  Whatever values rcc.h gives the enumerators, distinct or not,
    every identifier rcc.c names indexes inside the device table, so on any
    bus [rcc_clk_enable] and [rcc_reset_dev] return for it: a named
    identifier never leads to an out-of-bounds read. *)
Theorem rcc_named_identifier_in_bounds {H : Type} `{Bus H} hdr d (h : H) :
  (dev_num hdr d < length (rcc_dev_table hdr))%nat /\
  result (rcc_clk_enable hdr (Z.of_nat (dev_num hdr d)) h) = Returned tt /\
  result (rcc_reset_dev hdr (Z.of_nat (dev_num hdr d)) h) = Returned tt.
Proof.
  pose proof (rcc_dev_table_named_inside hdr d) as Hlen.
  split; [exact Hlen|].
  destruct (lookup_lt_is_Some_2 _ _ Hlen) as [info Hinfo].
  rewrite <- array_get_of_nat in Hinfo.
  split; [by apply (rcc_clk_enable_inside hdr _ info)
         | by apply (rcc_reset_dev_inside hdr _ info)].
Qed.

(** X18.  An index inside the device table that is no identifier's value
    selects a zero-filled element, which reads as domain [APB1], line 0:
    the entry of [RCC_TIMER2].  On any bus, [rcc_clk_enable] and
    [rcc_reset_dev] called with such a value do exactly what they do for
    [RCC_TIMER2]. *)
Theorem rcc_unused_value_acts_as_TIMER2 {H : Type} `{Bus H} hdr (i : nat) (h : H) :
  rcc_h_ok hdr ->
  (i < length (rcc_dev_table hdr))%nat ->
  (forall d, dev_num hdr d <> i) ->
  rcc_dev_table hdr !! i = Some {| clk_domain := APB1; line_num := 0 |} /\
  rcc_clk_enable hdr (Z.of_nat i) h =
  rcc_clk_enable hdr (Z.of_nat (dev_num hdr RCC_TIMER2)) h /\
  rcc_reset_dev hdr (Z.of_nat i) h =
  rcc_reset_dev hdr (Z.of_nat (dev_num hdr RCC_TIMER2)) h.
Proof.
  intros Hok Hlen Hunused.
  assert (rcc_dev_table hdr !! i = Some {| clk_domain := APB1; line_num := 0 |})
    as Hgap.
  { apply designate_gap; [|exact Hlen].
    intros ([j info] & -> & ([d info'] & [= -> ->] & _)%list_elem_of_fmap)%list_elem_of_fmap.
    by apply (Hunused d). }
  assert (rcc_dev_table hdr !! dev_num hdr RCC_TIMER2
          = Some {| clk_domain := APB1; line_num := 0 |}) as Htimer.
  { apply rcc_dev_table_lookup; [done | repeat constructor]. }
  rewrite <- array_get_of_nat in Hgap, Htimer.
  split; [by rewrite <- array_get_of_nat|]. split.
  - by rewrite (rcc_clk_enable_entry hdr _ _ RCC_APB1ENR h Hgap eq_refl),
      (rcc_clk_enable_entry hdr _ _ RCC_APB1ENR h Htimer eq_refl).
  - by rewrite (rcc_reset_dev_entry hdr _ _ RCC_APB1RSTR h Hgap eq_refl),
      (rcc_reset_dev_entry hdr _ _ RCC_APB1RSTR h Htimer eq_refl).
Qed.

Lemma sparse_h_ok : rcc_h_ok sparse_h.
Proof. split; intros [] []; cbn; congruence. Qed.

Lemma rcc_unused_value_acts_as_TIMER2_witness :
  rcc_dev_table sparse_h !! 1%nat = Some {| clk_domain := APB1; line_num := 0 |} /\
  rcc_clk_enable sparse_h 1 zero_regs = rcc_clk_enable sparse_h 20 zero_regs /\
  rcc_reset_dev sparse_h 1 zero_regs = rcc_reset_dev sparse_h 20 zero_regs.
Proof.
  apply (rcc_unused_value_acts_as_TIMER2 sparse_h 1 zero_regs sparse_h_ok).
  - vm_compute. lia.
  - intros d. cbn. lia.
Defined.

(** ** Responsive hardware *)

Section Polling.
Context {H : Type} `{Bus H}.

Lemma poll_again fuel addr busy (h h' : H) v :
  __read addr h = Run (Returned v) h' [EvRead addr v] -> busy v = true ->
  while_ (S fuel) (x ← __read addr; mret (busy x)) (mret tt) h =
  Run (result (while_ fuel (x ← __read addr; mret (busy x)) (mret tt) h'))
      (hw (while_ fuel (x ← __read addr; mret (busy x)) (mret tt) h'))
      (EvRead addr v ::
       trace (while_ fuel (x ← __read addr; mret (busy x)) (mret tt) h')).
Proof.
  intros Hread Hbusy. cbn [while_].
  rewrite (bind_returned _ _ h true h' [EvRead addr v]).
  2:{ rewrite (bind_returned _ _ _ _ _ _ Hread). cbn. by rewrite Hbusy. }
  by rewrite (bind_silent _ _ h' tt).
Qed.

Lemma poll_done fuel addr busy (h h' : H) v :
  __read addr h = Run (Returned v) h' [EvRead addr v] -> busy v = false ->
  while_ (S fuel) (x ← __read addr; mret (busy x)) (mret tt) h =
  Run (Returned tt) h' [EvRead addr v].
Proof.
  intros Hread Hbusy. cbn [while_].
  rewrite (bind_returned _ _ h false h' [EvRead addr v]).
  2:{ rewrite (bind_returned _ _ _ _ _ _ Hread). cbn. by rewrite Hbusy. }
  done.
Qed.
End Polling.

Lemma read_sim addr (s : sim) :
  __read addr s =
  Run (Returned (sim_status s addr))
      (Sim (sim_regs s) (Nat.pred (sim_settle s)) (sim_hse_ok s))
      [EvRead addr (sim_status s addr)].
Proof. reflexivity. Qed.

(** The simulated status settles two reads after a write. *)
Lemma sim_poll_settles extra addr busy regs ok :
  busy (sim_status (Sim regs 2 ok) addr) = true ->
  busy (sim_status (Sim regs 0 ok) addr) = false ->
  while_ (3 + extra) (x ← __read addr; mret (busy x)) (mret tt) (Sim regs 2 ok) =
  Run (Returned tt) (Sim regs 0 ok)
      [EvRead addr (sim_status (Sim regs 2 ok) addr);
       EvRead addr (sim_status (Sim regs 2 ok) addr);
       EvRead addr (sim_status (Sim regs 0 ok) addr)].
Proof.
  intros Hbusy Hdone. change (3 + extra)%nat with (S (S (S extra))).
  rewrite (poll_again _ addr busy (Sim regs 2 ok) (Sim regs 1 ok)
             (sim_status (Sim regs 2 ok) addr) (read_sim addr _) Hbusy).
  rewrite (poll_again _ addr busy (Sim regs 1 ok) (Sim regs 0 ok)
             (sim_status (Sim regs 2 ok) addr) (read_sim addr _) Hbusy).
  by rewrite (poll_done _ addr busy (Sim regs 0 ok) (Sim regs 0 ok)
                (sim_status (Sim regs 0 ok) addr) (read_sim addr _) Hdone).
Qed.

Lemma land_cleared Y m : Z.land (Z.land Y (not32 m)) m = 0.
Proof.
  apply Z.bits_inj'. intros i Hi.
  rewrite !Z.land_spec, not32_testbit, Z.bits_0 by done.
  destruct (Z.testbit Y i), (bool_decide (i < 32)), (Z.testbit m i); done.
Qed.

Lemma land_swap a b c : Z.land (Z.land a b) c = Z.land (Z.land a c) b.
Proof. by rewrite <- !Z.land_assoc, (Z.land_comm b c). Qed.

Lemma sim_hse_unsettled regs ok :
  hse_busy (sim_status (Sim regs 2 ok) RCC_CR) = true.
Proof. unfold hse_busy, sim_status. cbn [sim_settle andb with_bits].
  change (RCC_CR =? RCC_CR) with true. cbn match.
  by rewrite land_cleared. Qed.

Lemma sim_pll_unsettled regs ok :
  pll_busy (sim_status (Sim regs 2 ok) RCC_CR) = true.
Proof. unfold pll_busy, sim_status. cbn [sim_settle andb with_bits].
  change (RCC_CR =? RCC_CR) with true. cbn match.
  by rewrite land_swap, land_cleared. Qed.

Lemma sim_hse_settled regs :
  Z.land (regs RCC_CR) RCC_CR_HSEON <> 0 ->
  hse_busy (sim_status (Sim regs 0 true) RCC_CR) = false.
Proof.
  intros Hon%Z.eqb_neq. unfold hse_busy, sim_status.
  cbn [sim_settle sim_regs sim_hse_ok andb].
  change (RCC_CR =? RCC_CR) with true. cbn match. rewrite Hon.
  cbn [negb with_bits]. by rewrite land_lor_same.
Qed.

Lemma sim_pll_settled regs :
  Z.land (regs RCC_CR) RCC_CR_PLLON <> 0 ->
  pll_busy (sim_status (Sim regs 0 true) RCC_CR) = false.
Proof.
  intros Hon%Z.eqb_neq. unfold pll_busy, sim_status.
  cbn [sim_settle sim_regs sim_hse_ok andb].
  change (RCC_CR =? RCC_CR) with true. cbn match. rewrite Hon.
  cbn [negb with_bits].
  destruct (negb (Z.land (regs RCC_CR) RCC_CR_HSEON =? 0)); cbn [with_bits].
  - rewrite Z.land_lor_distr_l, land_lor_same. by compute.
  - rewrite land_swap, land_lor_same. by compute.
Qed.

Lemma sim_switch_unsettled regs ok :
  sw_busy (sim_status (Sim regs 2 ok) RCC_CFGR) = true.
Proof.
  unfold sw_busy, sim_status. cbn [sim_settle sim_regs].
  change (RCC_CFGR =? RCC_CR) with false.
  change (RCC_CFGR =? RCC_CFGR) with true. cbn match.
  by rewrite Z.lor_0_r, land_cleared.
Qed.

Lemma sim_switch_settled regs ok :
  Z.land (regs RCC_CFGR) RCC_CFGR_SW = RCC_CFGR_SW_PLL ->
  sw_busy (sim_status (Sim regs 0 ok) RCC_CFGR) = false.
Proof.
  intros Hsw. unfold sw_busy, sim_status. cbn [sim_settle sim_regs].
  change (RCC_CFGR =? RCC_CR) with false.
  change (RCC_CFGR =? RCC_CFGR) with true. cbn match.
  rewrite Hsw, Z.land_lor_distr_l, land_cleared. by compute.
Qed.

(** X19.  The busy-wait loops do end on hardware that answers.  On the
    simulated board with a working crystal, from any register contents,
    [rcc_clk_init] given three or more rounds of fuel returns after fourteen
    accesses: afterwards the control register holds the value first read
    with [RCC_CR_HSEON] and [RCC_CR_PLLON] added, the configuration register
    holds [pll_src | pll_mul] with the PLL selected in [SW], and no other
    register has changed.  More fuel changes nothing. *)
Theorem rcc_clk_init_returns_on_responsive_board hdr extra pll_mul (s : sim) :
  sim_hse_ok s = true ->
  let pll_src := RCC_PLLSRC_HSE hdr in
  let r := rcc_clk_init hdr (3 + extra) (RCC_CLKSRC_PLL hdr) pll_src pll_mul s in
  result r = Returned tt /\
  length (trace r) = 14%nat /\
  sim_regs (hw r) RCC_CR =
  Z.lor (Z.lor (sim_status s RCC_CR) RCC_CR_HSEON) RCC_CR_PLLON /\
  sim_regs (hw r) RCC_CFGR =
  Z.lor (Z.land (Z.lor pll_src pll_mul) (not32 RCC_CFGR_SW)) RCC_CFGR_SW_PLL /\
  (forall a, a <> RCC_CR -> a <> RCC_CFGR -> sim_regs (hw r) a = sim_regs s a).
Proof.
  destruct s as [regs n ok]. cbn [sim_hse_ok]. intros ->. cbn zeta.
  unfold rcc_clk_init.
  rewrite (bind_silent _ _ _ tt) by (unfold ASSERT; by rewrite !Z.eqb_refl).
  unfold RCC_READ_CR, RCC_READ_CFGR, RCC_WRITE_CR, RCC_WRITE_CFGR.
  rewrite (bind_returned _ _ _ _ _ _ (read_sim RCC_CR _)), !write_then.
  cbn [result hw trace].
  set (cr0 := sim_status _ RCC_CR).
  set (cfgr0 := Z.lor (RCC_PLLSRC_HSE hdr) pll_mul).
  set (cfgr1 := Z.lor (Z.land cfgr0 _) _).
  set (regs2 := regfile_set RCC_CR (Z.lor cr0 RCC_CR_HSEON)
                  (regfile_set RCC_CFGR cfgr0 regs)).
  set (regs3 := regfile_set RCC_CR (Z.lor (Z.lor cr0 RCC_CR_HSEON) RCC_CR_PLLON)
                  regs2).
  set (regs4 := regfile_set RCC_CFGR cfgr1 regs3).
  assert (regs2 RCC_CR = Z.lor cr0 RCC_CR_HSEON) as Hcr2
    by apply regfile_set_eq.
  assert (regs3 RCC_CR = Z.lor (Z.lor cr0 RCC_CR_HSEON) RCC_CR_PLLON) as Hcr3
    by apply regfile_set_eq.
  assert (regs4 RCC_CFGR = cfgr1) as Hcfgr4 by apply regfile_set_eq.
  pose proof (sim_poll_settles extra RCC_CR hse_busy regs2 true
                (sim_hse_unsettled _ _)) as Hloop1.
  pose proof (sim_poll_settles extra RCC_CR pll_busy regs3 true
                (sim_pll_unsettled _ _)) as Hloop2.
  pose proof (sim_poll_settles extra RCC_CFGR sw_busy regs4 true
                (sim_switch_unsettled _ _)) as Hloop3.
  specialize (Hloop1 (sim_hse_settled regs2 ltac:(rewrite Hcr2, land_lor_same; discriminate))).
  specialize (Hloop2 (sim_pll_settled regs3 ltac:(rewrite Hcr3, land_lor_same; discriminate))).
  specialize (Hloop3 (sim_switch_settled regs4 true
                        ltac:(rewrite Hcfgr4; apply switch_field_set))).
  lazymatch goal with
  | |- context [(while_ ?f ?c ?b ≫= ?k) ?h] =>
      rewrite (bind_returned (while_ f c b) k h tt _ _ Hloop1)
  end.
  cbn [result hw trace]. rewrite write_then. cbn [result hw trace].
  lazymatch goal with
  | |- context [(while_ ?f ?c ?b ≫= ?k) ?h] =>
      rewrite (bind_returned (while_ f c b) k h tt _ _ Hloop2)
  end.
  cbn [result hw trace]. rewrite write_then. cbn [result hw trace].
  lazymatch goal with
  | |- context [while_ ?f ?c ?b ?h] =>
      change (while_ f c b h)
        with (while_ (3 + extra) (x ← __read RCC_CFGR; mret (sw_busy x))
                     (mret tt) (Sim regs4 2 true))
  end.
  rewrite Hloop3. cbn [result hw trace sim_regs app length].
  split; [done|]. split; [done|].
  split; [unfold regs4; by rewrite regfile_set_ne|].
  split; [done|].
  intros a Hcr Hcfgr. unfold regs4, regs3, regs2. by rewrite !regfile_set_ne.
Qed.

Lemma rcc_clk_init_returns_on_responsive_board_witness :
  let r := rcc_clk_init sample_h 3 0x2 (Z.shiftl 0x1 16) (Z.shiftl 0x7 18) board in
  result r = Returned tt /\ length (trace r) = 14%nat /\
  sim_regs (hw r) RCC_CR = 0x1010000 /\ sim_regs (hw r) RCC_CFGR = 0x1D0002.
Proof.
  destruct (rcc_clk_init_returns_on_responsive_board sample_h 0 (Z.shiftl 0x7 18)
              board eq_refl) as (Hres & Hlen & Hcr & Hcfgr & _).
  repeat split; assumption.
Defined.

Lemma dead_crystal_never_returns_witness :
  result (rcc_clk_init sample_h 1000 0x2 (Z.shiftl 0x1 16) (Z.shiftl 0x7 18)
            dead_board) = Spinning.
Proof.
  exact (dead_crystal_never_returns sample_h 1000 (Z.shiftl 0x7 18) dead_board
           eq_refl).
Defined.

(** ** Enable and reset registers of one device *)

(** X21.  For every identifier of the table, on any bus, [rcc_clk_enable]
    and [rcc_reset_dev] work on the registers of the same bus domain: either
    the device is on APB1 and they access only 0x4002101C (APB1ENR) and
    0x40021010 (APB1RSTR), or it is on APB2 and they access only 0x40021018
    (APB2ENR) and 0x4002100C (APB2RSTR). *)
Theorem rcc_device_registers_paired {H : Type} `{Bus H} hdr d info (h : H) :
  rcc_h_ok hdr -> (d, info) ∈ rcc_dev_inits ->
  let id := Z.of_nat (dev_num hdr d) in
  (clk_domain info = APB1 /\
   Forall (fun e => ev_addr e = 0x4002101C) (trace (rcc_clk_enable hdr id h)) /\
   Forall (fun e => ev_addr e = 0x40021010) (trace (rcc_reset_dev hdr id h))) \/
  (clk_domain info = APB2 /\
   Forall (fun e => ev_addr e = 0x40021018) (trace (rcc_clk_enable hdr id h)) /\
   Forall (fun e => ev_addr e = 0x4002100C) (trace (rcc_reset_dev hdr id h))).
Proof.
  intros Hok Hin. cbn zeta.
  destruct (rcc_dev_inits_shape _ _ Hin) as [[Hdom | Hdom] _]; [left | right];
    (split; [exact Hdom|]); split.
  - rewrite (rcc_clk_enable_step hdr d info RCC_APB1ENR)
      by (done || by rewrite Hdom).
    rewrite set_bits_run. by repeat constructor.
  - rewrite (rcc_reset_dev_step hdr d info RCC_APB1RSTR)
      by (done || by rewrite Hdom).
    unfold mbind, prog_bind. rewrite set_bits_run. cbn [result hw trace].
    rewrite clear_bits_run. by repeat constructor.
  - rewrite (rcc_clk_enable_step hdr d info RCC_APB2ENR)
      by (done || by rewrite Hdom).
    rewrite set_bits_run. by repeat constructor.
  - rewrite (rcc_reset_dev_step hdr d info RCC_APB2RSTR)
      by (done || by rewrite Hdom).
    unfold mbind, prog_bind. rewrite set_bits_run. cbn [result hw trace].
    rewrite clear_bits_run. by repeat constructor.
Qed.

Lemma rcc_device_registers_paired_witness :
  Forall (fun e => ev_addr e = 0x40021018) (trace (rcc_clk_enable sample_h 0 zero_regs)) /\
  Forall (fun e => ev_addr e = 0x4002100C) (trace (rcc_reset_dev sample_h 0 zero_regs)).
Proof.
  destruct (rcc_device_registers_paired sample_h RCC_GPIOA
              {| clk_domain := APB2; line_num := 2 |} zero_regs sample_h_ok
              ltac:(repeat constructor))
    as [(Hdom & _) | (_ & Hen & Hrst)]; [discriminate Hdom|].
  split; [exact Hen | exact Hrst].
Defined.
